(** * Keyball39 input drivers: PMW3360 optical sensor and analog joystick

    A shallow embedding of the two polling drivers of the repository,

      - [modules/keyball39_pmw3360/drivers/input/pmw3360.c]
      - the analog joystick driver ([zmk_joystick_analog]),

    together with the properties their design document states.

    C integers are carried by [Z] with every conversion written out.
    The drivers talk to the outside world through Zephyr calls only; those
    calls are recorded, in program order, in a trace of [action]s, and the
    values the hardware hands back are read from an oracle indexed by the
    number of transfers made so far. *)

From Stdlib Require Import ZArith List Bool Lia.
Import ListNotations.
Local Open Scope Z_scope.

(** ** Fixed-width integers *)

Module CInt.

Definition INT16_MIN : Z := -32768.
Definition INT16_MAX : Z := 32767.
Definition INT32_MIN : Z := -2147483648.
Definition INT32_MAX : Z := 2147483647.

(** Conversions to the types the drivers use ([(uint8_t)e], [(int16_t)e],
    and the implicit ones of assignments). *)
Definition to_uint8 (z : Z) : Z := z mod 256.
Definition to_uint16 (z : Z) : Z := z mod 65536.
Definition to_int16 (z : Z) : Z := (z + 32768) mod 65536 - 32768.
Definition to_int32 (z : Z) : Z := (z + 2147483648) mod 4294967296 - 2147483648.
Definition to_int64 (z : Z) : Z :=
  (z + 9223372036854775808) mod 18446744073709551616 - 9223372036854775808.

Definition is_uint8 (z : Z) : Prop := 0 <= z <= 255.
Definition is_uint16 (z : Z) : Prop := 0 <= z <= 65535.
Definition is_int16 (z : Z) : Prop := INT16_MIN <= z <= INT16_MAX.
Definition is_int32 (z : Z) : Prop := INT32_MIN <= z <= INT32_MAX.

(** [int32_t] arithmetic: the mathematical result brought back to 32 bits.
    Division is C division, which truncates toward zero. *)
Definition add32 (a b : Z) : Z := to_int32 (a + b).
Definition sub32 (a b : Z) : Z := to_int32 (a - b).
Definition neg32 (a : Z) : Z := to_int32 (- a).
Definition div32 (a b : Z) : Z := to_int32 (Z.quot a b).
Definition add64 (a b : Z) : Z := to_int64 (a + b).
Definition div64 (a b : Z) : Z := to_int64 (Z.quot a b).

End CInt.

(** ** The Zephyr calls the drivers make *)

Module Zephyr.

(** errno values returned negated by the drivers. *)
Definition EIO : Z := 5.
Definition ENODEV : Z := 19.

(** Relative axes of [INPUT_EV_REL] events. *)
Inductive rel_code : Type := INPUT_REL_X | INPUT_REL_Y.

(** The two ADC channels of the joystick. *)
Inductive adc_channel : Type := X_ADC | Y_ADC.

Inductive action : Type :=
| SpiWriteHold (tx : list Z)          (* spi_write, SPI_HOLD_ON_CS set *)
| SpiReadHold (len : Z)               (* spi_read, SPI_HOLD_ON_CS set *)
| SpiRelease                          (* spi_release *)
| BusyWait (us : Z)                   (* k_busy_wait *)
| MSleep (ms : Z)                     (* k_msleep / k_sleep(K_MSEC) *)
| AdcSequenceInit (ch : adc_channel)  (* adc_sequence_init_dt *)
| AdcRead (ch : adc_channel)          (* adc_read *)
| InputReportRel (code : rel_code) (value : Z) (sync : bool)
                                      (* input_report(dev, INPUT_EV_REL, ..) *)
| WorkInitDelayable                   (* k_work_init_delayable *)
| WorkSchedule (delay_ms : Z).        (* k_work_schedule(.., K_MSEC(..)) *)

Definition rel_code_eqb (a b : rel_code) : bool :=
  match a, b with
  | INPUT_REL_X, INPUT_REL_X | INPUT_REL_Y, INPUT_REL_Y => true
  | _, _ => false
  end.

(** A computation returns a value, the number of hardware transfers made
    so far, and the calls it issued. *)
Definition M (A : Type) : Type := nat -> A * nat * list action.

Definition ret {A} (a : A) : M A := fun n => (a, n, []).

Definition bind {A B} (m : M A) (f : A -> M B) : M B :=
  fun n =>
    match m n with
    | (a, n1, t1) =>
        match f a n1 with
        | (b, n2, t2) => (b, n2, t1 ++ t2)
        end
    end.

Definition call (a : action) : M unit := fun n => (tt, n, [a]).

(** Index of the next hardware transfer; the transfer is then consumed. *)
Definition transfer : M nat := fun n => (n, S n, []).

Definition value {A} (r : A * nat * list action) : A := fst (fst r).
Definition transfers {A} (r : A * nat * list action) : nat := snd (fst r).
Definition trace {A} (r : A * nat * list action) : list action := snd r.

Declare Scope zephyr_scope.
Delimit Scope zephyr_scope with zephyr.
Notation "x <- m ;; k" := (bind m (fun x => k))
  (at level 61, m at next level, right associativity) : zephyr_scope.
Notation "m ;; k" := (bind m (fun _ => k))
  (at level 61, right associativity) : zephyr_scope.

(** Modelled from the spec: [DT_PROP_OR] and [DT_INST_PROP_OR] of Zephyr's
    devicetree API are used by the instantiation macros but defined outside
    the repository; they yield the property when the devicetree configures
    it and the given default when it is left unconfigured. *)
Definition DT_PROP_OR (prop : option Z) (default : Z) : Z :=
  match prop with
  | Some v => v
  | None => default
  end.

(** Events of one kind in a trace. *)
Definition is_report (c : rel_code) (a : action) : bool :=
  match a with
  | InputReportRel c' _ _ => rel_code_eqb c c'
  | _ => false
  end.

Definition is_schedule (a : action) : bool :=
  match a with WorkSchedule _ => true | _ => false end.

Definition reports (c : rel_code) (t : list action) : list action :=
  filter (is_report c) t.

Definition schedules (t : list action) : list action :=
  filter is_schedule t.

Definition input_events (t : list action) : list action :=
  filter (fun a => is_report INPUT_REL_X a || is_report INPUT_REL_Y a) t.

End Zephyr.

(** ** PMW3360 optical sensor driver *)

Module Pmw3360.
Import CInt Zephyr.
Local Open Scope zephyr_scope.

(** [enum pmw3360_reg] *)
Definition PMW3360_PRODUCT_ID : Z := 0x00.
Definition PMW3360_REVISION_ID : Z := 0x01.
Definition PMW3360_MOTION : Z := 0x02.
Definition PMW3360_DELTA_X_L : Z := 0x03.
Definition PMW3360_DELTA_X_H : Z := 0x04.
Definition PMW3360_DELTA_Y_L : Z := 0x05.
Definition PMW3360_DELTA_Y_H : Z := 0x06.
Definition PMW3360_CONFIG1 : Z := 0x0F.
Definition PMW3360_CONFIG2 : Z := 0x10.
Definition PMW3360_POWER_UP_RESET : Z := 0x3A.

(** [struct pmw3360_config]; [spi_ready] is what [spi_is_ready_dt] answers
    for the [spi] member. *)
Record pmw3360_config : Type := {
  spi_ready : bool;
  polling_interval_ms : Z;
  cpi : Z
}.

(** [struct pmw3360_data]: the device pointer, unset until bring-up. *)
Record pmw3360_data : Type := {
  dev : option nat
}.

(** What one SPI transfer returns: the status of [spi_write]/[spi_read]
    and, for a read, the byte left in the receive buffer. *)
Record spi_result : Type := {
  spi_ret : Z;
  spi_rx : Z
}.

Section Driver.
(** The bus: the result of the n-th transfer. *)
Variable bus : nat -> spi_result.

Definition pmw3360_spi_write_hold (buf : list Z) : M Z :=
  n <- transfer ;;
  call (SpiWriteHold buf) ;;
  ret (spi_ret (bus n)).

Definition pmw3360_spi_read_hold (len : Z) : M (Z * Z) :=
  n <- transfer ;;
  call (SpiReadHold len) ;;
  ret (spi_ret (bus n), spi_rx (bus n)).

Definition pmw3360_spi_release_hold : M unit := call SpiRelease.

Definition k_busy_wait (us : Z) : M unit := call (BusyWait us).

(** [pmw3360_reg_read(cfg, reg, val)]: returns the error code and the
    content of [*val] afterwards; [val] is its content before. *)
Definition pmw3360_reg_read (reg : Z) (val : Z) : M (Z * Z) :=
  let addr := Z.land reg 0x7F in
  err <- pmw3360_spi_write_hold [addr] ;;
  if negb (err =? 0) then
    pmw3360_spi_release_hold ;;
    ret (err, val)
  else
    k_busy_wait 160 ;;
    r <- pmw3360_spi_read_hold 1 ;;
    let err := fst r in
    let data := snd r in
    pmw3360_spi_release_hold ;;
    k_busy_wait 19 ;;
    ret (err, if err =? 0 then data else val).

Definition pmw3360_reg_write (reg : Z) (val : Z) : M Z :=
  let tx := [to_uint8 (Z.lor reg 0x80); val] in
  err <- pmw3360_spi_write_hold tx ;;
  k_busy_wait 35 ;;
  pmw3360_spi_release_hold ;;
  k_busy_wait 145 ;;
  ret err.

Definition pmw3360_set_cpi (cfg : pmw3360_config) : M Z :=
  let cpi0 := cpi cfg in
  let cpi1 := if cpi0 <? 100 then 100
              else if cpi0 >? 12000 then 12000
              else cpi0 in
  let reg_val := to_uint8 (Z.quot cpi1 100 - 1) in
  pmw3360_reg_write PMW3360_CONFIG1 reg_val.

(** [pmw3360_read_motion(cfg, dx, dy)]: the returned triple is the
    boolean result and the contents of [*dx], [*dy] afterwards. *)
Definition pmw3360_read_motion (dx dy : Z) : M (bool * Z * Z) :=
  m <- pmw3360_reg_read PMW3360_MOTION 0 ;;
  if negb (fst m =? 0) then ret (false, dx, dy)
  else
    let motion := snd m in
    if Z.land motion 0x80 =? 0 then ret (false, dx, dy)
    else
      r1 <- pmw3360_reg_read PMW3360_DELTA_X_L 0 ;;
      if negb (fst r1 =? 0) then ret (false, dx, dy) else
      r2 <- pmw3360_reg_read PMW3360_DELTA_X_H 0 ;;
      if negb (fst r2 =? 0) then ret (false, dx, dy) else
      r3 <- pmw3360_reg_read PMW3360_DELTA_Y_L 0 ;;
      if negb (fst r3 =? 0) then ret (false, dx, dy) else
      r4 <- pmw3360_reg_read PMW3360_DELTA_Y_H 0 ;;
      if negb (fst r4 =? 0) then ret (false, dx, dy) else
      let xl := snd r1 in
      let xh := snd r2 in
      let yl := snd r3 in
      let yh := snd r4 in
      ret (true,
           to_int16 (Z.lor (Z.shiftl xh 8) xl),
           to_int16 (Z.lor (Z.shiftl yh 8) yl)).

Definition pmw3360_work_handler (cfg : pmw3360_config) : M unit :=
  r <- pmw3360_read_motion 0 0 ;;
  let ok := fst (fst r) in
  let dx := snd (fst r) in
  let dy := snd r in
  (if ok && (negb (dx =? 0) || negb (dy =? 0)) then
     call (InputReportRel INPUT_REL_X dx false) ;;
     call (InputReportRel INPUT_REL_Y dy true)
   else ret tt) ;;
  call (WorkSchedule (polling_interval_ms cfg)).

Definition pmw3360_init (d : nat) (cfg : pmw3360_config)
    (data : pmw3360_data) : M (Z * pmw3360_data) :=
  if negb (spi_ready cfg) then ret (- ENODEV, data) else
  e <- pmw3360_reg_write PMW3360_POWER_UP_RESET 0x5A ;;
  if negb (e =? 0) then ret (- EIO, data) else
  call (MSleep 50) ;;
  p <- pmw3360_reg_read PMW3360_PRODUCT_ID 0 ;;
  if negb (fst p =? 0) then ret (- EIO, data) else
  r <- pmw3360_reg_read PMW3360_REVISION_ID 0 ;;
  if negb (fst r =? 0) then ret (- EIO, data) else
  let pid := snd p in
  let rev := snd r in
  if negb (pid =? 0x42) || negb (rev =? 0x01) then ret (- ENODEV, data) else
  pmw3360_reg_write PMW3360_CONFIG2 0x00 ;;
  pmw3360_set_cpi cfg ;;
  call WorkInitDelayable ;;
  call (WorkSchedule (polling_interval_ms cfg)) ;;
  ret (0, {| dev := Some d |}).

End Driver.

(** [PMW3360_INST(n)]: the configuration of one instance, from the two
    optional devicetree properties. *)
Definition PMW3360_INST (ready : bool) (interval_prop cpi_prop : option Z)
    : pmw3360_config :=
  {| spi_ready := ready;
     polling_interval_ms := to_uint16 (DT_PROP_OR interval_prop 4);
     cpi := to_uint16 (DT_PROP_OR cpi_prop 500) |}.

End Pmw3360.

(** ** Analog joystick driver *)

Module Joystick.
Import CInt Zephyr.
Local Open Scope zephyr_scope.

(** The driver is kept in two revisions that differ only in how a
    conversion is set up (an [adc_dt_spec] per channel, or a prepared
    [adc_sequence] per axis); calibration, conditioning, reporting and the
    tick are the same text in both.  The embedding follows the revision
    with [adc_dt_spec].

    [struct joystick_config], without the two [adc_dt_spec] members: the
    channel a read goes to is named by an [adc_channel]. *)
Record joystick_config : Type := {
  poll_interval_ms : Z;
  deadzone : Z;
  scale_divisor : Z;
  invert_x : bool;
  invert_y : bool
}.

(** [struct joystick_data] *)
Record joystick_data : Type := {
  dev : option nat;
  center_x : Z;
  center_y : Z
}.

(** What one conversion yields: the status of [adc_sequence_init_dt], the
    status of [adc_read], and the [int16_t] left in the sample buffer. *)
Record adc_result : Type := {
  seq_init_ret : Z;
  read_ret : Z;
  sample : Z
}.

(** A conversion the driver treats as successful. *)
Definition adc_ok (r : adc_result) : bool :=
  negb (seq_init_ret r <? 0) && negb (read_ret r <? 0).

(** The status [joystick_read_axis] returns for a failed conversion. *)
Definition adc_err (r : adc_result) : Z :=
  if seq_init_ret r <? 0 then seq_init_ret r else read_ret r.

Definition poll_interval_or_default (interval_ms : Z) : Z :=
  if interval_ms >? 0 then interval_ms else 10.

Definition apply_deadzone (value : Z) (deadzone : Z) : Z :=
  if value >? 0 then
    if value <=? deadzone then 0 else sub32 value deadzone
  else if value <? 0 then
    if neg32 value <=? deadzone then 0 else add32 value deadzone
  else 0.

Definition scale_value (value : Z) (divisor : Z) : Z :=
  let safe_divisor := if divisor =? 0 then 1 else divisor in
  div32 value safe_divisor.

(** Modelled from the spec: the [CLAMP] and [MIN] macros of
    [zephyr/sys/util.h] are used by [joystick_report] but defined outside
    the repository; the value is brought into the closed range
    [low .. high]. *)
Definition MIN (a b : Z) : Z := if a <? b then a else b.
Definition CLAMP (val low high : Z) : Z :=
  if val <=? low then low else MIN val high.

Section Driver.
(** The converter: the result of the n-th conversion. *)
Variable adc : nat -> adc_result.

(** [joystick_read_axis(spec, out)]: returns the status and the content
    of [*out] afterwards; [out] is its content before. *)
Definition joystick_read_axis (ch : adc_channel) (out : Z) : M (Z * Z) :=
  n <- transfer ;;
  call (AdcSequenceInit ch) ;;
  let err := seq_init_ret (adc n) in
  if err <? 0 then ret (err, out) else
  call (AdcRead ch) ;;
  let err := read_ret (adc n) in
  if err <? 0 then ret (err, out) else
  ret (0, sample (adc n)).

(** The [for] loop of [joystick_calibrate] with [i] iterations left:
    [inl err] when the function returns from inside the loop, [inr] the
    two sums when the loop runs to its end. *)
Fixpoint calibrate_loop (i : nat) (sum_x sum_y : Z) : M (Z + Z * Z) :=
  match i with
  | O => ret (inr (sum_x, sum_y))
  | S i' =>
      rx <- joystick_read_axis X_ADC 0 ;;
      if fst rx <? 0 then ret (inl (fst rx)) else
      ry <- joystick_read_axis Y_ADC 0 ;;
      if fst ry <? 0 then ret (inl (fst ry)) else
      call (MSleep 2) ;;
      calibrate_loop i' (add64 sum_x (snd rx)) (add64 sum_y (snd ry))
  end.

Definition joystick_calibrate (data : joystick_data)
    : M (Z * joystick_data) :=
  r <- calibrate_loop 8 0 0 ;;
  match r with
  | inl err => ret (err, data)
  | inr (sum_x, sum_y) =>
      ret (0, {| dev := dev data;
                 center_x := to_int32 (div64 sum_x 8);
                 center_y := to_int32 (div64 sum_y 8) |})
  end.

Definition joystick_report (dx dy : Z) : M unit :=
  let have_x := negb (dx =? 0) in
  let have_y := negb (dy =? 0) in
  (if have_x then
     call (InputReportRel INPUT_REL_X
             (to_int16 (CLAMP dx INT16_MIN INT16_MAX)) (negb have_y))
   else ret tt) ;;
  (if have_y then
     call (InputReportRel INPUT_REL_Y
             (to_int16 (CLAMP dy INT16_MIN INT16_MAX)) true)
   else ret tt).

Definition joystick_work_cb (cfg : joystick_config) (data : joystick_data)
    : M unit :=
  rx <- joystick_read_axis X_ADC 0 ;;
  if fst rx <? 0 then
    call (WorkSchedule (poll_interval_or_default (poll_interval_ms cfg)))
  else
  ry <- joystick_read_axis Y_ADC 0 ;;
  if fst ry <? 0 then
    call (WorkSchedule (poll_interval_or_default (poll_interval_ms cfg)))
  else
  let dx := sub32 (snd rx) (center_x data) in
  let dy := sub32 (snd ry) (center_y data) in
  let dx := scale_value (apply_deadzone dx (deadzone cfg)) (scale_divisor cfg) in
  let dy := scale_value (apply_deadzone dy (deadzone cfg)) (scale_divisor cfg) in
  let dx := if invert_x cfg then neg32 dx else dx in
  let dy := if invert_y cfg then neg32 dy else dy in
  joystick_report dx dy ;;
  call (WorkSchedule (poll_interval_or_default (poll_interval_ms cfg))).

End Driver.

(** [JOYSTICK_ANALOG_INST(n)]: the configuration of one instance, from the
    optional devicetree properties. *)
Definition JOYSTICK_ANALOG_INST
    (interval_prop deadzone_prop divisor_prop : option Z)
    (invert_x_prop invert_y_prop : option Z) : joystick_config :=
  {| poll_interval_ms := to_uint16 (DT_PROP_OR interval_prop 10);
     deadzone := to_uint16 (DT_PROP_OR deadzone_prop 100);
     scale_divisor := to_uint16 (DT_PROP_OR divisor_prop 128);
     invert_x := negb (DT_PROP_OR invert_x_prop 0 =? 0);
     invert_y := negb (DT_PROP_OR invert_y_prop 0 =? 0) |}.

End Joystick.

(** ** Reading traces and scripted hardware *)

Module Script.
Import CInt Zephyr.

(** Register addresses put on the bus by read transactions: the one-byte
    frames written, in order. *)
Fixpoint registers_read (t : list action) : list Z :=
  match t with
  | [] => []
  | SpiWriteHold [a] :: t' => a :: registers_read t'
  | _ :: t' => registers_read t'
  end.

(** The guard delays of a trace, in order. *)
Fixpoint waits (t : list action) : list Z :=
  match t with
  | [] => []
  | BusyWait us :: t' => us :: waits t'
  | _ :: t' => waits t'
  end.

(** The calls of a complete register read, and of a complete register
    write. *)
Definition reg_read_calls (reg : Z) : list action :=
  [SpiWriteHold [Z.land reg 0x7F]; BusyWait 160; SpiReadHold 1;
   SpiRelease; BusyWait 19].

Definition reg_write_calls (reg val : Z) : list action :=
  [SpiWriteHold [to_uint8 (Z.lor reg 0x80); val]; BusyWait 35;
   SpiRelease; BusyWait 145].

(** A bus that answers from a list and fails with [-EIO] afterwards. *)
Definition bus_of (l : list (Z * Z)) (n : nat) : Pmw3360.spi_result :=
  let r := nth n l (- EIO, 0) in
  {| Pmw3360.spi_ret := fst r; Pmw3360.spi_rx := snd r |}.

(** Status [0x80], then X-low/high [0x10, 0x00] and Y-low/high
    [0xF0, 0xFF]; every address write and every read succeeds. *)
Definition motion_example_bus : nat -> Pmw3360.spi_result :=
  bus_of [(0, 0); (0, 0x80); (0, 0); (0, 0x10); (0, 0); (0, 0x00);
          (0, 0); (0, 0xF0); (0, 0); (0, 0xFF)].

(** A converter that answers the listed samples successfully and fails
    with [-EIO] afterwards. *)
Definition adc_of (l : list Z) (n : nat) : Joystick.adc_result :=
  match nth_error l n with
  | Some s => {| Joystick.seq_init_ret := 0; Joystick.read_ret := 0;
                 Joystick.sample := s |}
  | None => {| Joystick.seq_init_ret := 0; Joystick.read_ret := - EIO;
               Joystick.sample := 0 |}
  end.

(** Status [0x80] with a motion along X only: X-low/high [0x10, 0x00],
    Y-low/high [0x00, 0x00]. *)
Definition x_only_bus : nat -> Pmw3360.spi_result :=
  bus_of [(0, 0); (0, 0x80); (0, 0); (0, 0x10); (0, 0); (0, 0x00);
          (0, 0); (0, 0x00); (0, 0); (0, 0x00)].

(** A sensor instance whose polling interval is configured as 0. *)
Definition zero_interval_config : Pmw3360.pmw3360_config :=
  {| Pmw3360.spi_ready := true; Pmw3360.polling_interval_ms := 0;
     Pmw3360.cpi := 500 |}.

(** Sixteen conversions: the X channel delivers 10, 12, 8, 14, 9, 11,
    13, 7 and the Y channel 500 each time. *)
Definition calibration_example_adc : nat -> Joystick.adc_result :=
  adc_of [10; 500; 12; 500; 8; 500; 14; 500;
          9; 500; 11; 500; 13; 500; 7; 500].

(** The joystick of the end-to-end example. *)
Definition example_joystick_config : Joystick.joystick_config :=
  {| Joystick.poll_interval_ms := 10; Joystick.deadzone := 50;
     Joystick.scale_divisor := 10;
     Joystick.invert_x := false; Joystick.invert_y := false |}.

Definition example_joystick_data : Joystick.joystick_data :=
  {| Joystick.dev := Some 0%nat;
     Joystick.center_x := 500; Joystick.center_y := 500 |}.

End Script.

(** ** The design document's statements, as predicates and functions *)

Module Design.
Import CInt Zephyr Script.

Section Sensor.
Import Pmw3360.
Variable bus : nat -> spi_result.

(** Both transfers of the register read that starts at transfer [n]
    succeed. *)
Definition reg_read_ok (n : nat) : bool :=
  (spi_ret (bus n) =? 0) && (spi_ret (bus (S n)) =? 0).

(** The byte that register read delivers. *)
Definition reg_read_byte (n : nat) : Z := spi_rx (bus (S n)).

(** [readRegister] on a failed address write: the guard delays are
    those of a successful read. *)
Definition write_failure_keeps_guards (reg : Z) (n : nat) : Prop :=
  spi_ret (bus n) <> 0 ->
  waits (trace (pmw3360_reg_read bus reg 0 n)) = [160; 19].

(** Every byte the bus delivers is a byte. *)
Definition bus_bytes : Prop := forall k, is_uint8 (spi_rx (bus k)).

(** A signed 16-bit delta from its two bytes, the high byte most
    significant. *)
Definition delta16 (hi lo : Z) : Z := to_int16 (256 * hi + lo).

(** [sampleMotion]: the status register is read first; with its
    validity bit set, X-low, X-high, Y-low and Y-high follow; there is a
    motion only when the five reads succeed. *)
Definition sampleMotion (n : nat) : option (Z * Z) :=
  if reg_read_ok n && negb (Z.land (reg_read_byte n) 0x80 =? 0)
     && reg_read_ok (2 + n) && reg_read_ok (4 + n)
     && reg_read_ok (6 + n) && reg_read_ok (8 + n)
  then Some (delta16 (reg_read_byte (4 + n)) (reg_read_byte (2 + n)),
             delta16 (reg_read_byte (8 + n)) (reg_read_byte (6 + n)))
  else None.

(** Bring-up passes: the bus is ready, the reset write succeeds, both
    identity reads succeed and deliver [(0x42, 0x01)]. *)
Definition bringup_ok (cfg : pmw3360_config) (n : nat) : bool :=
  spi_ready cfg && (spi_ret (bus n) =? 0)
  && reg_read_ok (1 + n) && reg_read_ok (3 + n)
  && (reg_read_byte (1 + n) =? 0x42) && (reg_read_byte (3 + n) =? 0x01).

(** One tick reports each axis exactly when its delta is not zero, the
    X event announcing the Y event when both are reported, and never
    reports the value 0. *)
Definition reports_nonzero_axes (t : list action) (dx dy : Z) : Prop :=
  (reports INPUT_REL_X t <> [] <-> dx <> 0) /\
  (reports INPUT_REL_Y t <> [] <-> dy <> 0) /\
  (dx <> 0 -> dy <> 0 ->
   exists vx vy,
     input_events t = [InputReportRel INPUT_REL_X vx false;
                       InputReportRel INPUT_REL_Y vy true]) /\
  (forall c s, ~ In (InputReportRel c 0 s) t).

(** One tick re-arms the poller once, after the configured interval or
    after 10 when that interval is zero. *)
Definition reschedules_with_default (t : list action) (interval : Z)
    : Prop :=
  schedules t = [WorkSchedule (if interval =? 0 then 10 else interval)].

End Sensor.

Section Stick.
Import Joystick.

(** The deltas [joystick_work_cb] hands to [joystick_report], for one
    axis. *)
Definition tick_delta (cfg : joystick_config) (center : Z)
    (invert : bool) (raw : Z) : Z :=
  let d := scale_value (apply_deadzone (sub32 raw center) (deadzone cfg))
             (scale_divisor cfg) in
  if invert then neg32 d else d.

(** The deadzone policy: small excursions are suppressed, larger ones
    are moved toward zero by the threshold. *)
Definition deadzone_policy (v d : Z) : Z :=
  if 0 <? v then (if v <=? d then 0 else v - d)
  else if v <? 0 then (if - v <=? d then 0 else v + d)
  else 0.

Definition effective_divisor (divisor : Z) : Z :=
  if divisor =? 0 then 1 else divisor.

Definition clamp16 (v : Z) : Z := Z.max INT16_MIN (Z.min INT16_MAX v).

(** Conditioning of one axis, in the order of the document: centre,
    deadzone, scale, invert, clamp. *)
Definition condition_axis (cfg : joystick_config) (center : Z)
    (invert : bool) (raw : Z) : Z :=
  let centered := raw - center in
  let dead := deadzone_policy centered (deadzone cfg) in
  let scaled := Z.quot dead (effective_divisor (scale_divisor cfg)) in
  let signed := if invert then - scaled else scaled in
  clamp16 signed.

(** Emission of one conditioned pair: an axis is reported only when it
    is not zero, and the last event of the tick closes the batch. *)
Definition emit_events (dx dy : Z) : list action :=
  (if dx =? 0 then []
   else [InputReportRel INPUT_REL_X dx (dy =? 0)])
  ++ (if dy =? 0 then [] else [InputReportRel INPUT_REL_Y dy true]).

(** Sum of [i] samples taken at every second conversion from [n] on. *)
Fixpoint sum_samples (adc : nat -> adc_result) (n i : nat) : Z :=
  match i with
  | O => 0
  | S i' => sample (adc n) + sum_samples adc (S (S n)) i'
  end.

(** The calls of [i] successful paired samples. *)
Fixpoint paired_sample_calls (i : nat) : list action :=
  match i with
  | O => []
  | S i' =>
      [AdcSequenceInit X_ADC; AdcRead X_ADC;
       AdcSequenceInit Y_ADC; AdcRead Y_ADC; MSleep 2]
      ++ paired_sample_calls i'
  end.

(** Every sample the converter delivers is an [int16_t]. *)
Definition adc_samples (adc : nat -> adc_result) : Prop :=
  forall k, is_int16 (sample (adc k)).

End Stick.

End Design.

(** ** Bus discipline, timing and the event batches of a tick *)

Module Discipline.
Import CInt Zephyr.

(** The chip select of the sensor, as the hold flag of the transfers leaves
    it. *)
Inductive bus_state : Type := Released | Held.

(** A trace respects the bus when a transaction opens with a write on a
    released bus, reads only on a held bus, and releases only a held bus;
    the result is the state the trace leaves the bus in. *)
Fixpoint bus_run (s : bus_state) (t : list action) : option bus_state :=
  match t with
  | [] => Some s
  | SpiWriteHold _ :: t' =>
      match s with Released => bus_run Held t' | Held => None end
  | SpiReadHold _ :: t' =>
      match s with Held => bus_run Held t' | Released => None end
  | SpiRelease :: t' =>
      match s with Held => bus_run Released t' | Released => None end
  | _ :: t' => bus_run s t'
  end.

(** Time spent in [k_busy_wait], in microseconds. *)
Definition busy_time (t : list action) : Z :=
  fold_right Z.add 0 (Script.waits t).

(** A frame that reads a register: one byte, top bit clear. *)
Definition is_read_frame (tx : list Z) : bool :=
  match tx with
  | [a] => negb (Z.testbit a 7)
  | _ => false
  end.

(** No frame of the trace writes a register. *)
Definition read_only (t : list action) : bool :=
  forallb (fun a => match a with
                    | SpiWriteHold tx => is_read_frame tx
                    | _ => true
                    end) t.

(** The value byte of the first two-byte frame of a trace. *)
Fixpoint written_value (t : list action) : option Z :=
  match t with
  | [] => None
  | SpiWriteHold [_; v] :: _ => Some v
  | _ :: t' => written_value t'
  end.



(** The conversions a trace attempts on one channel. *)
Definition is_conversion (ch : adc_channel) (a : action) : bool :=
  match a, ch with
  | AdcSequenceInit X_ADC, X_ADC | AdcRead X_ADC, X_ADC
  | AdcSequenceInit Y_ADC, Y_ADC | AdcRead Y_ADC, Y_ADC => true
  | _, _ => false
  end.

(** The calls calibration may make: conversions and sleeps. *)
Definition is_sampling_call (a : action) : bool :=
  match a with
  | AdcSequenceInit _ | AdcRead _ | MSleep _ => true
  | _ => false
  end.

(** The calls of one conversion: the sequence is initialised, and read
    when the initialisation did not fail. *)
Definition conversion_calls (ch : adc_channel) (r : Joystick.adc_result)
    : list action :=
  if Joystick.seq_init_ret r <? 0 then [AdcSequenceInit ch]
  else [AdcSequenceInit ch; AdcRead ch].

End Discipline.

(** ** Bring-up of the joystick *)

Module JoystickBringUp.
Import CInt Zephyr Joystick.

(** What the ADC answers during bring-up: [adc_is_ready_dt] and
    [adc_channel_setup_dt] for the two channels. *)
Record adc_setup : Type := {
  x_ready : bool;
  y_ready : bool;
  x_setup_ret : Z;
  y_setup_ret : Z
}.

(** The calls of bring-up: the channel set-ups, and the calls the rest of
    the driver makes. *)
Inductive init_call : Type :=
| AdcChannelSetup (ch : adc_channel)    (* adc_channel_setup_dt *)
| DriverCall (a : action).

Definition driver_calls (t : list init_call) : list action :=
  flat_map (fun c => match c with
                     | DriverCall a => [a]
                     | AdcChannelSetup _ => []
                     end) t.

(** [joystick_init(dev)]: the status and the instance data afterwards, the
    number of conversions made, and the calls issued. *)
Definition joystick_init (hw : adc_setup) (adc : nat -> adc_result)
    (d : nat) (cfg : joystick_config) (data : joystick_data) (n : nat)
    : (Z * joystick_data) * nat * list init_call :=
  if negb (x_ready hw) || negb (y_ready hw) then ((- ENODEV, data), n, [])
  else
    let err := x_setup_ret hw in
    if err <? 0 then ((err, data), n, [AdcChannelSetup X_ADC]) else
    let err := y_setup_ret hw in
    if err <? 0 then
      ((err, data), n, [AdcChannelSetup X_ADC; AdcChannelSetup Y_ADC])
    else
    let r := joystick_calibrate adc data n in
    let err := fst (value r) in
    let data := snd (value r) in
    let t := [AdcChannelSetup X_ADC; AdcChannelSetup Y_ADC]
             ++ map DriverCall (trace r) in
    if err <? 0 then ((err, data), transfers r, t) else
    ((0, {| dev := Some d;
            center_x := center_x data; center_y := center_y data |}),
     transfers r,
     t ++ [DriverCall WorkInitDelayable;
           DriverCall (WorkSchedule
                         (poll_interval_or_default (poll_interval_ms cfg)))]).

End JoystickBringUp.

(** ** The joystick driver with prepared ADC sequences *)

Module JoystickSeq.
Import CInt Zephyr.

(** [struct joystick_axis_data]: of the prepared sequence only the
    [calibrate] flag changes; [sample] is the buffer the sequence points
    to. *)
Record joystick_axis_data : Type := {
  seq_calibrate : bool;
  axis_sample : Z
}.

(** [struct joystick_data] of this revision. *)
Record joystick_data : Type := {
  dev : option nat;
  center_x : Z;
  center_y : Z;
  x : joystick_axis_data;
  y : joystick_axis_data
}.

(** What [adc_read] returns and leaves in the sample buffer. *)
Record adc_read_result : Type := {
  adc_ret : Z;
  adc_buffer : Z
}.

(** The calls of this revision: [adc_read] with the [calibrate] flag of the
    sequence it is given, and [k_sleep]. *)
Inductive seq_call : Type :=
| AdcReadSeq (ch : adc_channel) (calibrate : bool)
| KSleep (ms : Z).

(** The [calibrate] flags of the reads of one channel, in order. *)
Fixpoint calibrate_requests (ch : adc_channel) (t : list seq_call)
    : list bool :=
  match t with
  | [] => []
  | AdcReadSeq c b :: t' =>
      match c, ch with
      | X_ADC, X_ADC | Y_ADC, Y_ADC => b :: calibrate_requests ch t'
      | _, _ => calibrate_requests ch t'
      end
  | KSleep _ :: t' => calibrate_requests ch t'
  end.

Section Driver.
Variable adc : nat -> adc_read_result.

(** [joystick_read_axis(adc, axis, out)]: the status, the axis data and the
    content of [*out] afterwards. *)
Definition joystick_read_axis (ch : adc_channel) (axis : joystick_axis_data)
    (out : Z) (n : nat)
    : (Z * joystick_axis_data * Z) * nat * list seq_call :=
  let err := adc_ret (adc n) in
  let axis' := {| seq_calibrate := false;
                  axis_sample := adc_buffer (adc n) |} in
  if err <? 0 then
    ((err, axis', out), S n, [AdcReadSeq ch (seq_calibrate axis)])
  else
    ((0, axis', axis_sample axis'), S n,
     [AdcReadSeq ch (seq_calibrate axis)]).

(** The [for] loop of [joystick_calibrate] with [i] iterations left. *)
Fixpoint calibrate_loop (i : nat) (sum_x sum_y : Z)
    (ax ay : joystick_axis_data) (n : nat)
    : ((Z + Z * Z) * joystick_axis_data * joystick_axis_data)
      * nat * list seq_call :=
  match i with
  | O => ((inr (sum_x, sum_y), ax, ay), n, [])
  | S i' =>
      let '(err, ax', raw_x, n1, t1) := joystick_read_axis X_ADC ax 0 n in
      if err <? 0 then ((inl err, ax', ay), n1, t1) else
      let '(err, ay', raw_y, n2, t2) := joystick_read_axis Y_ADC ay 0 n1 in
      if err <? 0 then ((inl err, ax', ay'), n2, t1 ++ t2) else
      let '(res, n3, t3) :=
        calibrate_loop i' (add64 sum_x raw_x) (add64 sum_y raw_y)
          ax' ay' n2 in
      (res, n3, t1 ++ t2 ++ [KSleep 2] ++ t3)
  end.

Definition joystick_calibrate (data : joystick_data) (n : nat)
    : (Z * joystick_data) * nat * list seq_call :=
  let '(res, ax, ay, n1, t) := calibrate_loop 8 0 0 (x data) (y data) n in
  match res with
  | inl err =>
      ((err, {| dev := dev data; center_x := center_x data;
                center_y := center_y data; x := ax; y := ay |}),
       n1, t)
  | inr (sum_x, sum_y) =>
      ((0, {| dev := dev data;
              center_x := to_int32 (div64 sum_x 8);
              center_y := to_int32 (div64 sum_y 8);
              x := ax; y := ay |}),
       n1, t)
  end.

End Driver.

(** The converter of the other revision that behaves like [adc]: the
    sequence initialisation of that revision always succeeds. *)
Definition as_dt_adc (adc : nat -> adc_read_result) (n : nat)
    : Joystick.adc_result :=
  {| Joystick.seq_init_ret := 0;
     Joystick.read_ret := adc_ret (adc n);
     Joystick.sample := adc_buffer (adc n) |}.

End JoystickSeq.

(** * Properties of the PMW3360 register protocol *)

Module Pmw3360Facts.
Import CInt Zephyr Pmw3360 Script Design.

Section RegisterAccess.
Variable bus : nat -> spi_result.

Lemma reg_read_run (reg val : Z) (n : nat) :
  pmw3360_reg_read bus reg val n =
  if spi_ret (bus n) =? 0 then
    ((spi_ret (bus (S n)),
      if spi_ret (bus (S n)) =? 0 then spi_rx (bus (S n)) else val),
     S (S n), reg_read_calls reg)
  else
    ((spi_ret (bus n), val), S n,
     [SpiWriteHold [Z.land reg 0x7F]; SpiRelease]).
Proof.
  unfold pmw3360_reg_read, pmw3360_spi_write_hold.
  cbv beta delta [bind transfer call ret] iota.
  destruct (spi_ret (bus n) =? 0); reflexivity.
Qed.

Lemma reg_write_run (reg val : Z) (n : nat) :
  pmw3360_reg_write bus reg val n =
  (spi_ret (bus n), S n, reg_write_calls reg val).
Proof. reflexivity. Qed.

Lemma reg_read_success (reg val : Z) (n : nat) :
  reg_read_ok bus n = true ->
  pmw3360_reg_read bus reg val n =
  ((0, spi_rx (bus (S n))), S (S n), reg_read_calls reg).
Proof.
  unfold reg_read_ok. intros H.
  apply andb_true_iff in H. destruct H as [Hw Hr].
  rewrite reg_read_run, Hw, Hr.
  apply Z.eqb_eq in Hr. now rewrite Hr.
Qed.

Lemma reg_read_failure (reg val : Z) (n : nat) :
  reg_read_ok bus n = false ->
  (fst (value (pmw3360_reg_read bus reg val n)) =? 0) = false.
Proof.
  unfold reg_read_ok. intros H. rewrite reg_read_run.
  destruct (spi_ret (bus n) =? 0) eqn:Hw; cbn in *; auto.
Qed.

(** C10. Whenever [pmw3360_reg_read] returns a non-zero error code,
    whether it comes from the address write or from the data read, the
    byte behind the caller's [val] pointer is the one that was there
    before the call. *)
Theorem reg_read_error_keeps_val (reg val : Z) (n : nat) :
  fst (value (pmw3360_reg_read bus reg val n)) <> 0 ->
  snd (value (pmw3360_reg_read bus reg val n)) = val.
Proof.
  rewrite reg_read_run.
  destruct (spi_ret (bus n) =? 0) eqn:Hw; cbn; [ | reflexivity ].
  intros Herr. apply Z.eqb_neq in Herr. now rewrite Herr.
Qed.

(** C2 (amended). The address frame of a register read has its top bit
    clear.  When the address write succeeds the read is: write the
    one-byte frame, wait 160, read one byte, release, wait 19.  When
    the address write fails the hold is released at once and the error
    returned: nothing is read and neither guard delay is executed. *)
Theorem reg_read_protocol (reg val : Z) (n : nat) :
  Z.testbit (Z.land reg 0x7F) 7 = false /\
  trace (pmw3360_reg_read bus reg val n) =
    (if spi_ret (bus n) =? 0 then
       [SpiWriteHold [Z.land reg 0x7F]; BusyWait 160; SpiReadHold 1;
        SpiRelease; BusyWait 19]
     else [SpiWriteHold [Z.land reg 0x7F]; SpiRelease]) /\
  waits (trace (pmw3360_reg_read bus reg val n)) =
    (if spi_ret (bus n) =? 0 then [160; 19] else []) /\
  (if spi_ret (bus n) =? 0 then True
   else value (pmw3360_reg_read bus reg val n) = (spi_ret (bus n), val)).
Proof.
  split.
  - rewrite Z.land_spec. change (Z.testbit 0x7F 7) with false.
    apply andb_false_r.
  - rewrite reg_read_run.
    destruct (spi_ret (bus n) =? 0); repeat split; reflexivity.
Qed.

(** C8. [pmw3360_set_cpi] brings the requested CPI into [100, 12000]
    and writes [clamped / 100 - 1], a value between 0 and 119, to the
    resolution register [CONFIG1]; 50 is written as 0, like 100, and
    20000 as 119, like 12000. *)
Theorem set_cpi_clamps_and_encodes (cfg : pmw3360_config) (n : nat) :
  let clamped := Z.max 100 (Z.min 12000 (cpi cfg)) in
  let encoding := clamped / 100 - 1 in
  trace (pmw3360_set_cpi bus cfg n) =
    [SpiWriteHold [Z.lor PMW3360_CONFIG1 0x80; encoding]; BusyWait 35;
     SpiRelease; BusyWait 145] /\
  0 <= encoding <= 119 /\
  (forall rdy iv,
     trace (pmw3360_set_cpi bus
              {| spi_ready := rdy; polling_interval_ms := iv; cpi := 50 |} n) =
       [SpiWriteHold [0x8F; 0]; BusyWait 35; SpiRelease; BusyWait 145] /\
     trace (pmw3360_set_cpi bus
              {| spi_ready := rdy; polling_interval_ms := iv; cpi := 100 |} n) =
       [SpiWriteHold [0x8F; 0]; BusyWait 35; SpiRelease; BusyWait 145] /\
     trace (pmw3360_set_cpi bus
              {| spi_ready := rdy; polling_interval_ms := iv; cpi := 20000 |} n) =
       [SpiWriteHold [0x8F; 119]; BusyWait 35; SpiRelease; BusyWait 145] /\
     trace (pmw3360_set_cpi bus
              {| spi_ready := rdy; polling_interval_ms := iv; cpi := 12000 |} n) =
       [SpiWriteHold [0x8F; 119]; BusyWait 35; SpiRelease; BusyWait 145]).
Proof.
  cbv zeta. split; [ | split ].
  - unfold pmw3360_set_cpi. rewrite reg_write_run.
    unfold reg_write_calls, trace, PMW3360_CONFIG1. cbn [snd].
    change (to_uint8 (Z.lor 15 128)) with (Z.lor 15 128).
    assert (Henc :
      to_uint8 (Z.quot (if cpi cfg <? 100 then 100
                        else if cpi cfg >? 12000 then 12000
                        else cpi cfg) 100 - 1) =
      Z.max 100 (Z.min 12000 (cpi cfg)) / 100 - 1);
      [ | now rewrite Henc ].
    destruct (cpi cfg <? 100) eqn:Hlo;
      [ apply Z.ltb_lt in Hlo | apply Z.ltb_ge in Hlo ].
    + replace (Z.max 100 (Z.min 12000 (cpi cfg))) with 100 by lia.
      reflexivity.
    + destruct (cpi cfg >? 12000) eqn:Hhi;
        [ apply Z.gtb_lt in Hhi | rewrite Z.gtb_ltb in Hhi;
                                  apply Z.ltb_ge in Hhi ].
      * replace (Z.max 100 (Z.min 12000 (cpi cfg))) with 12000 by lia.
        reflexivity.
      * replace (Z.max 100 (Z.min 12000 (cpi cfg))) with (cpi cfg) by lia.
        rewrite Z.quot_div_nonneg by lia.
        apply Z.mod_small.
        assert (1 <= cpi cfg / 100) by (apply Z.div_le_lower_bound; lia).
        assert (cpi cfg / 100 <= 120) by (apply Z.div_le_upper_bound; lia).
        lia.
  - assert (1 <= Z.max 100 (Z.min 12000 (cpi cfg)) / 100)
      by (apply Z.div_le_lower_bound; lia).
    assert (Z.max 100 (Z.min 12000 (cpi cfg)) / 100 <= 120)
      by (apply Z.div_le_upper_bound; lia).
    lia.
  - intros rdy iv. repeat split.
Qed.

End RegisterAccess.

(** Two bytes that do not overlap are combined by [|] as by [+]. *)
Lemma lor_shiftl_bytes (hi lo : Z) :
  is_uint8 lo -> Z.lor (Z.shiftl hi 8) lo = 256 * hi + lo.
Proof.
  unfold is_uint8. intros Hlo.
  rewrite Z.shiftl_mul_pow2 by lia. change (2 ^ 8) with 256.
  rewrite (Z.mul_comm hi 256).
  assert (Hdisj : Z.land (256 * hi) lo = 0).
  { apply Z.bits_inj'. intros i Hi.
    rewrite Z.land_spec, Z.bits_0.
    destruct (Z.lt_ge_cases i 8) as [Hlt | Hge].
    - change 256 with (2 ^ 8). rewrite Z.mul_comm, Z.mul_pow2_bits_low by lia.
      reflexivity.
    - replace lo with (lo mod 2 ^ 8) by (apply Z.mod_small; lia).
      rewrite Z.mod_pow2_bits_high by lia. apply andb_false_r. }
  rewrite <- Z.lxor_lor by exact Hdisj.
  symmetry. apply Z.add_nocarry_lxor. exact Hdisj.
Qed.

Section Motion.
Variable bus : nat -> spi_result.

(** The run of [pmw3360_read_motion], by cases on the five register
    reads. *)
Lemma read_motion_run (dx dy : Z) (n : nat) :
  let r := pmw3360_read_motion bus dx dy n in
  value r =
    (if reg_read_ok bus n && negb (Z.land (reg_read_byte bus n) 0x80 =? 0)
        && reg_read_ok bus (2 + n) && reg_read_ok bus (4 + n)
        && reg_read_ok bus (6 + n) && reg_read_ok bus (8 + n)
     then (true,
           to_int16 (Z.lor (Z.shiftl (reg_read_byte bus (4 + n)) 8)
                           (reg_read_byte bus (2 + n))),
           to_int16 (Z.lor (Z.shiftl (reg_read_byte bus (8 + n)) 8)
                           (reg_read_byte bus (6 + n))))
     else (false, dx, dy)) /\
  exists k, (1 <= k <= 5)%nat /\
    registers_read (trace r) =
      firstn k [PMW3360_MOTION; PMW3360_DELTA_X_L; PMW3360_DELTA_X_H;
                PMW3360_DELTA_Y_L; PMW3360_DELTA_Y_H] /\
    (fst (fst (value r)) = true -> k = 5%nat) /\
    (reg_read_ok bus n && negb (Z.land (reg_read_byte bus n) 0x80 =? 0)
       = false -> k = 1%nat) /\
    schedules (trace r) = [] /\
    (forall c v s, ~ In (InputReportRel c v s) (trace r)).
Proof.
  cbv zeta.
  unfold pmw3360_read_motion, reg_read_ok, reg_read_byte, value, trace.
  cbv beta iota delta [bind Nat.add].
  repeat (match goal with
          | H : (spi_ret (bus ?k) =? 0) = _
            |- context [spi_ret (bus ?k) =? 0] => rewrite H
          | |- context [pmw3360_reg_read bus ?r ?v ?m] =>
              rewrite (reg_read_run bus r v m)
          | |- context [if spi_ret (bus ?k) =? 0 then _ else _] =>
              destruct (spi_ret (bus k) =? 0) eqn:?
          | |- context [if Z.land ?a 128 =? 0 then _ else _] =>
              destruct (Z.land a 128 =? 0) eqn:?
          end;
          cbv beta iota delta [fst snd negb andb ret]).
  all: split; [ reflexivity | ].
  all: cbn [registers_read reg_read_calls app].
  all: match goal with
       | |- exists k, _ /\ ?l = _ /\ _ => exists (length l)
       end.
  all: cbn [length]; repeat split; try lia; try reflexivity;
       try (intros; congruence).
  all: intros c v s Hin; cbn in Hin;
       repeat destruct Hin as [Hin | Hin]; try discriminate Hin;
       exact Hin.
Qed.

Lemma read_motion_status_clear (dx dy : Z) (n : nat) :
  reg_read_ok bus n = true ->
  Z.land (reg_read_byte bus n) 0x80 = 0 ->
  pmw3360_read_motion bus dx dy n =
  ((false, dx, dy), S (S n), reg_read_calls PMW3360_MOTION).
Proof.
  intros Hok Hbit. unfold pmw3360_read_motion, bind.
  rewrite (reg_read_success bus _ _ _ Hok).
  cbv beta iota delta [fst snd negb ret].
  rewrite Z.eqb_refl. unfold reg_read_byte in Hbit. rewrite Hbit.
  cbn. reflexivity.
Qed.

(** C4. [pmw3360_read_motion] reads the status register first and, when
    its bit [0x80] is clear, returns [false] after that single register
    read, whatever the delta registers hold.  When the bit is set it
    reads X-low, X-high, Y-low, Y-high in this order, returns [false]
    as soon as one of them fails, and otherwise returns the two signed
    16-bit deltas with the high byte most significant.  Status [0x80]
    with X bytes [0x10, 0x00] and Y bytes [0xF0, 0xFF] gives
    [dx = 16], [dy = -16]. *)
Theorem read_motion_is_sampleMotion (dx dy : Z) (n : nat) :
  bus_bytes bus ->
  let r := pmw3360_read_motion bus dx dy n in
  value r =
    match sampleMotion bus n with
    | Some (x, y) => (true, x, y)
    | None => (false, dx, dy)
    end /\
  (exists k, (1 <= k <= 5)%nat /\
     registers_read (trace r) =
       firstn k [PMW3360_MOTION; PMW3360_DELTA_X_L; PMW3360_DELTA_X_H;
                 PMW3360_DELTA_Y_L; PMW3360_DELTA_Y_H]) /\
  (reg_read_ok bus n = true ->
   Z.land (reg_read_byte bus n) 0x80 = 0 ->
   value r = (false, dx, dy) /\
   trace r = [SpiWriteHold [PMW3360_MOTION]; BusyWait 160; SpiReadHold 1;
              SpiRelease; BusyWait 19]) /\
  (fst (fst (value r)) = true ->
   registers_read (trace r) =
     [PMW3360_MOTION; PMW3360_DELTA_X_L; PMW3360_DELTA_X_H;
      PMW3360_DELTA_Y_L; PMW3360_DELTA_Y_H]) /\
  (forall j, In j [2; 4; 6; 8]%nat ->
   reg_read_ok bus (j + n) = false -> value r = (false, dx, dy)) /\
  value (pmw3360_read_motion motion_example_bus 0 0 0%nat) = (true, 16, -16).
Proof.
  intros Hbytes r.
  destruct (read_motion_run dx dy n)
    as [Hval [k [Hk [Hregs [Hall [Hone _]]]]]].
  fold r in Hval, Hregs, Hall.
  assert (Hspec : value r =
            match sampleMotion bus n with
            | Some (x, y) => (true, x, y)
            | None => (false, dx, dy)
            end).
  { rewrite Hval. unfold sampleMotion, delta16.
    rewrite !lor_shiftl_bytes by apply Hbytes.
    destruct (_ && _); reflexivity. }
  split; [ exact Hspec | ].
  split; [ exists k; split; assumption | ].
  split; [ | split; [ | split ] ].
  - intros Hok Hbit. subst r.
    rewrite (read_motion_status_clear dx dy n Hok Hbit).
    split; reflexivity.
  - intros Htrue. rewrite Hregs, (Hall Htrue). reflexivity.
  - intros j Hj Hfail. rewrite Hspec. unfold sampleMotion.
    cbn in Hj.
    destruct Hj as [<- | [<- | [<- | [<- | []]]]]; rewrite Hfail;
      rewrite ?andb_false_r; reflexivity.
  - reflexivity.
Qed.

End Motion.

Section BringUp.
Variable bus : nat -> spi_result.

(** C9. [pmw3360_init] returns 0 exactly when the bus is ready, the
    reset write and both identity reads succeed, and the identity bytes
    are [(0x42, 0x01)].  In every other case it returns an error, leaves
    the instance data as it was, and neither initialises nor schedules
    the polling work.  The two configuration writes that follow the
    identity check are issued, and their status does not enter the
    result. *)
Theorem init_identity_gate (d : nat) (cfg : pmw3360_config)
    (data : pmw3360_data) (n : nat) :
  let r := pmw3360_init bus d cfg data n in
  (if bringup_ok bus cfg n then
     value r = (0, {| dev := Some d |}) /\
     trace r =
       [SpiWriteHold [0xBA; 0x5A]; BusyWait 35; SpiRelease; BusyWait 145;
        MSleep 50]
       ++ reg_read_calls PMW3360_PRODUCT_ID
       ++ reg_read_calls PMW3360_REVISION_ID
       ++ [SpiWriteHold [0x90; 0x00]; BusyWait 35; SpiRelease; BusyWait 145]
       ++ trace (pmw3360_set_cpi bus cfg (5 + n)%nat)
       ++ [WorkInitDelayable; WorkSchedule (polling_interval_ms cfg)]
   else
     fst (value r) <> 0 /\
     snd (value r) = data /\
     schedules (trace r) = [] /\
     ~ In WorkInitDelayable (trace r)) /\
  (bringup_ok bus cfg n = true ->
   spi_ret (bus (5 + n)%nat) <> 0 \/ spi_ret (bus (6 + n)%nat) <> 0 ->
   fst (value r) = 0 /\
   schedules (trace r) = [WorkSchedule (polling_interval_ms cfg)]).
Proof.
  cbv zeta.
  assert (Hmain :
    if bringup_ok bus cfg n then
      value (pmw3360_init bus d cfg data n) = (0, {| dev := Some d |}) /\
      trace (pmw3360_init bus d cfg data n) =
        [SpiWriteHold [0xBA; 0x5A]; BusyWait 35; SpiRelease; BusyWait 145;
         MSleep 50]
        ++ reg_read_calls PMW3360_PRODUCT_ID
        ++ reg_read_calls PMW3360_REVISION_ID
        ++ [SpiWriteHold [0x90; 0x00]; BusyWait 35; SpiRelease; BusyWait 145]
        ++ trace (pmw3360_set_cpi bus cfg (5 + n)%nat)
        ++ [WorkInitDelayable; WorkSchedule (polling_interval_ms cfg)]
    else
      fst (value (pmw3360_init bus d cfg data n)) <> 0 /\
      snd (value (pmw3360_init bus d cfg data n)) = data /\
      schedules (trace (pmw3360_init bus d cfg data n)) = [] /\
      ~ In WorkInitDelayable (trace (pmw3360_init bus d cfg data n))).
  { unfold pmw3360_init, pmw3360_set_cpi, bringup_ok, reg_read_ok,
      reg_read_byte, value, trace.
    destruct (spi_ready cfg).
    2:{ cbn. repeat split; [ discriminate | tauto ]. }
    cbv beta iota delta [bind Nat.add negb andb orb].
    repeat (match goal with
            | H : (?a =? ?b) = _ |- context [?a =? ?b] => rewrite H
            | |- context [pmw3360_reg_read bus ?r ?v ?m] =>
                rewrite (reg_read_run bus r v m)
            | |- context [pmw3360_reg_write bus ?r ?v ?m] =>
                rewrite (reg_write_run bus r v m)
            | |- context [if spi_ret (bus ?k) =? 0 then _ else _] =>
                destruct (spi_ret (bus k) =? 0) eqn:?
            | |- context [if spi_rx (bus ?k) =? ?c then _ else _] =>
                destruct (spi_rx (bus k) =? c) eqn:?
            end;
            cbv beta iota delta [fst snd negb andb orb ret call]).
    all: cbn; repeat split; try discriminate; try reflexivity;
         try (intros Hin; repeat destruct Hin as [Hin | Hin];
              try discriminate Hin; exact Hin). }
  split; [ exact Hmain | ].
  intros Hok _. rewrite Hok in Hmain. destruct Hmain as [Hv Ht].
  rewrite Hv, Ht. split; [ reflexivity | ].
  unfold pmw3360_set_cpi. rewrite reg_write_run. reflexivity.
Qed.

End BringUp.

Section Tick.
Variable bus : nat -> spi_result.

(** One tick: the calls of the sampling, the two reports when the
    sampling succeeded with a non-zero delta, the re-arming. *)
Lemma work_handler_run (cfg : pmw3360_config) (n : nat) :
  let rm := pmw3360_read_motion bus 0 0 n in
  let ok := fst (fst (value rm)) in
  let dx := snd (fst (value rm)) in
  let dy := snd (value rm) in
  trace (pmw3360_work_handler bus cfg n) =
    trace rm
    ++ (if ok && (negb (dx =? 0) || negb (dy =? 0)) then
          [InputReportRel INPUT_REL_X dx false;
           InputReportRel INPUT_REL_Y dy true]
        else [])
    ++ [WorkSchedule (polling_interval_ms cfg)].
Proof.
  cbv zeta. unfold pmw3360_work_handler, bind, value, trace.
  destruct (pmw3360_read_motion bus 0 0 n) as [[[[ok dx] dy] n1] t1].
  cbn [fst snd].
  destruct (ok && (negb (dx =? 0) || negb (dy =? 0))); reflexivity.
Qed.

Lemma read_motion_no_schedule (dx dy : Z) (n : nat) :
  schedules (trace (pmw3360_read_motion bus dx dy n)) = [].
Proof.
  destruct (read_motion_run bus dx dy n) as [_ [k [_ [_ [_ [_ [H _]]]]]]].
  exact H.
Qed.

Lemma read_motion_no_report (dx dy : Z) (n : nat) (c : rel_code) (v : Z)
    (s : bool) :
  ~ In (InputReportRel c v s) (trace (pmw3360_read_motion bus dx dy n)).
Proof.
  destruct (read_motion_run bus dx dy n) as [_ [k [_ [_ [_ [_ [_ H]]]]]]].
  apply H.
Qed.

End Tick.

Lemma motion_example_bus_bytes : bus_bytes motion_example_bus.
Proof.
  intros k. unfold motion_example_bus, bus_of, is_uint8.
  do 10 (destruct k as [ | k]; [ cbn; lia | ]).
  cbn. destruct k; cbn; lia.
Qed.

(** The motion sample of the example bus is the one [sampleMotion]
    describes. *)
Lemma read_motion_is_sampleMotion_witness :
  bus_bytes motion_example_bus /\
  value (pmw3360_read_motion motion_example_bus 0 0 0%nat) =
    match sampleMotion motion_example_bus 0 with
    | Some (x, y) => (true, x, y)
    | None => (false, 0, 0)
    end.
Proof.
  split.
  - exact motion_example_bus_bytes.
  - exact (proj1 (read_motion_is_sampleMotion motion_example_bus 0 0 0%nat
                    motion_example_bus_bytes)).
Defined.

(** Bring-up on a sensor that identifies itself and then fails the write
    of the resolution register still returns 0 and schedules polling. *)
Lemma init_identity_gate_witness :
  let b := bus_of [(0, 0); (0, 0); (0, 0x42); (0, 0); (0, 0x01); (0, 0)] in
  let cfg := {| spi_ready := true; polling_interval_ms := 4; cpi := 500 |} in
  bringup_ok b cfg 0 = true /\
  (spi_ret (b 5%nat) <> 0 \/ spi_ret (b 6%nat) <> 0) /\
  fst (value (pmw3360_init b 0 cfg {| dev := None |} 0%nat)) = 0 /\
  schedules (trace (pmw3360_init b 0 cfg {| dev := None |} 0%nat)) =
    [WorkSchedule 4].
Proof.
  cbv zeta.
  split; [ reflexivity | ].
  split; [ right; vm_compute; discriminate | ].
  apply (proj2 (init_identity_gate
                  (bus_of [(0, 0); (0, 0); (0, 0x42); (0, 0); (0, 0x01);
                           (0, 0)])
                  0 {| spi_ready := true; polling_interval_ms := 4;
                       cpi := 500 |}
                  {| dev := None |} 0%nat)).
  - reflexivity.
  - right. vm_compute. discriminate.
Defined.

(** A register read whose data phase fails returns [-EIO] and leaves the
    caller's byte, here 7, in place. *)
Lemma reg_read_error_keeps_val_witness :
  fst (value (pmw3360_reg_read (bus_of [(0, 0); (- EIO, 0x42)])
                PMW3360_PRODUCT_ID 7 0%nat)) <> 0 /\
  snd (value (pmw3360_reg_read (bus_of [(0, 0); (- EIO, 0x42)])
                PMW3360_PRODUCT_ID 7 0%nat)) = 7.
Proof.
  split.
  - vm_compute. discriminate.
  - apply (reg_read_error_keeps_val (bus_of [(0, 0); (- EIO, 0x42)])
             PMW3360_PRODUCT_ID 7 0%nat).
    vm_compute. discriminate.
Defined.

(** C2, as the document states it, fails: on a bus whose first transfer
    fails, the read of the motion register executes no guard delay. *)
Lemma reg_read_write_failure_skips_guards :
  ~ write_failure_keeps_guards (bus_of [(- EIO, 0)]) PMW3360_MOTION 0%nat.
Proof.
  unfold write_failure_keeps_guards. intros H.
  assert (Hfail : spi_ret (bus_of [(- EIO, 0)] 0%nat) <> 0)
    by (vm_compute; discriminate).
  specialize (H Hfail). vm_compute in H. discriminate H.
Qed.

End Pmw3360Facts.

(** * Properties of the joystick signal conditioning *)

Module JoystickFacts.
Import CInt Zephyr Joystick Script Design.

Lemma to_int16_small (z : Z) : is_int16 z -> to_int16 z = z.
Proof.
  unfold is_int16, INT16_MIN, INT16_MAX, to_int16. intros H.
  rewrite Z.mod_small; lia.
Qed.

Lemma to_int32_small (z : Z) : is_int32 z -> to_int32 z = z.
Proof.
  unfold is_int32, INT32_MIN, INT32_MAX, to_int32. intros H.
  rewrite Z.mod_small; lia.
Qed.

Lemma to_int64_small (z : Z) :
  - 2 ^ 63 <= z < 2 ^ 63 -> to_int64 z = z.
Proof.
  unfold to_int64. intros H.
  change (2 ^ 63) with 9223372036854775808 in H.
  rewrite Z.mod_small; lia.
Qed.

(** Away from [INT32_MIN], whose negation does not fit, [apply_deadzone]
    computes the deadzone policy without wrapping. *)
Lemma apply_deadzone_policy (v d : Z) :
  INT32_MIN < v <= INT32_MAX -> is_uint16 d ->
  apply_deadzone v d = deadzone_policy v d.
Proof.
  unfold INT32_MIN, INT32_MAX, is_uint16. intros Hv Hd.
  unfold apply_deadzone, deadzone_policy, sub32, add32, neg32.
  rewrite Z.gtb_ltb.
  destruct (0 <? v) eqn:Hpos.
  - apply Z.ltb_lt in Hpos.
    destruct (v <=? d) eqn:Hle; [ reflexivity | ].
    apply Z.leb_gt in Hle.
    apply to_int32_small. unfold is_int32, INT32_MIN, INT32_MAX. lia.
  - apply Z.ltb_ge in Hpos.
    destruct (v <? 0) eqn:Hneg; [ | reflexivity ].
    apply Z.ltb_lt in Hneg.
    rewrite (to_int32_small (- v))
      by (unfold is_int32, INT32_MIN, INT32_MAX; lia).
    destruct (- v <=? d) eqn:Hle; [ reflexivity | ].
    apply Z.leb_gt in Hle.
    apply to_int32_small. unfold is_int32, INT32_MIN, INT32_MAX. lia.
Qed.

(** A centered value, the difference of an [int16_t] sample and a centre
    in the [int16_t] range, is an [int32_t] other than [INT32_MIN]. *)
Lemma centered_value_range (raw center : Z) :
  is_int16 raw -> is_int16 center ->
  sub32 raw center = raw - center /\
  INT32_MIN < sub32 raw center <= INT32_MAX.
Proof.
  unfold is_int16, INT16_MIN, INT16_MAX, sub32. intros Hr Hc.
  rewrite to_int32_small
    by (unfold is_int32, INT32_MIN, INT32_MAX; lia).
  unfold INT32_MIN, INT32_MAX. lia.
Qed.

(** C5. For a threshold [d] (an unsigned 16-bit value, hence [d >= 0])
    and a centered value [v], [apply_deadzone v d] is zero or has the sign
    of [v], and its absolute value is [max 0 (|v| - d)]; one step beyond
    the threshold gives one step beyond zero, on either side. *)
Theorem apply_deadzone_sign_and_size (v d : Z) :
  INT32_MIN < v <= INT32_MAX -> is_uint16 d ->
  (apply_deadzone v d = 0 \/ Z.sgn (apply_deadzone v d) = Z.sgn v) /\
  Z.abs (apply_deadzone v d) = Z.max 0 (Z.abs v - d) /\
  apply_deadzone (d + 1) d = 1 /\
  apply_deadzone (- (d + 1)) d = - 1.
Proof.
  intros Hv Hd.
  assert (Hd' : 0 <= d <= 65535) by exact Hd.
  assert (Hv' : -2147483648 < v <= 2147483647) by exact Hv.
  rewrite (apply_deadzone_policy v d Hv Hd).
  rewrite (apply_deadzone_policy (d + 1) d)
    by (unfold INT32_MIN, INT32_MAX; auto; lia).
  rewrite (apply_deadzone_policy (- (d + 1)) d)
    by (unfold INT32_MIN, INT32_MAX; auto; lia).
  unfold deadzone_policy.
  repeat split.
  - destruct (0 <? v) eqn:Hpos.
    + apply Z.ltb_lt in Hpos.
      destruct (v <=? d) eqn:Hle; [ now left | right ].
      apply Z.leb_gt in Hle.
      rewrite !Z.sgn_pos by lia. reflexivity.
    + apply Z.ltb_ge in Hpos.
      destruct (v <? 0) eqn:Hneg; [ | now left ].
      apply Z.ltb_lt in Hneg.
      destruct (- v <=? d) eqn:Hle; [ now left | right ].
      apply Z.leb_gt in Hle.
      rewrite !Z.sgn_neg by lia. reflexivity.
  - destruct (0 <? v) eqn:Hpos.
    + apply Z.ltb_lt in Hpos.
      destruct (v <=? d) eqn:Hle;
        [ apply Z.leb_le in Hle | apply Z.leb_gt in Hle ]; lia.
    + apply Z.ltb_ge in Hpos.
      destruct (v <? 0) eqn:Hneg;
        [ apply Z.ltb_lt in Hneg | apply Z.ltb_ge in Hneg ].
      * destruct (- v <=? d) eqn:Hle;
          [ apply Z.leb_le in Hle | apply Z.leb_gt in Hle ]; lia.
      * lia.
  - replace (0 <? d + 1) with true by (symmetry; apply Z.ltb_lt; lia).
    replace (d + 1 <=? d) with false by (symmetry; apply Z.leb_gt; lia).
    lia.
  - replace (0 <? - (d + 1)) with false by (symmetry; apply Z.ltb_ge; lia).
    replace (- (d + 1) <? 0) with true by (symmetry; apply Z.ltb_lt; lia).
    replace (- - (d + 1) <=? d) with false by (symmetry; apply Z.leb_gt; lia).
    lia.
Qed.

Lemma CLAMP_clamp16 (v : Z) :
  to_int16 (CLAMP v INT16_MIN INT16_MAX) = clamp16 v.
Proof.
  unfold CLAMP, MIN, clamp16, INT16_MIN, INT16_MAX.
  destruct (v <=? -32768) eqn:Hlo;
    [ apply Z.leb_le in Hlo | apply Z.leb_gt in Hlo ].
  - rewrite to_int16_small by (unfold is_int16, INT16_MIN, INT16_MAX; lia).
    lia.
  - destruct (v <? 32767) eqn:Hhi;
      [ apply Z.ltb_lt in Hhi | apply Z.ltb_ge in Hhi ];
      rewrite to_int16_small
        by (unfold is_int16, INT16_MIN, INT16_MAX; lia);
      lia.
Qed.

Lemma clamp16_zero (v : Z) : (clamp16 v =? 0) = (v =? 0).
Proof.
  unfold clamp16, INT16_MIN, INT16_MAX.
  destruct (v =? 0) eqn:Hv;
    [ apply Z.eqb_eq in Hv; subst v; reflexivity | ].
  apply Z.eqb_neq in Hv. apply Z.eqb_neq. lia.
Qed.

Lemma quot_abs_le (a b : Z) : 0 < b -> Z.abs (Z.quot a b) <= Z.abs a.
Proof.
  intros Hb.
  pose proof (Z.quot_abs a b ltac:(lia)) as Habs.
  rewrite <- Habs, (Z.abs_eq b) by lia.
  rewrite Z.quot_div_nonneg by lia.
  apply Z.div_le_upper_bound; [ lia | ].
  pose proof (Z.abs_nonneg a). nia.
Qed.

(** Within the ranges of the driver's types the conditioning of one axis
    never wraps: clamped to 16 bits, the delta of the tick is the
    conditioned value of the document. *)
Lemma tick_delta_condition (cfg : joystick_config) (center : Z)
    (invert : bool) (raw : Z) :
  is_int16 raw -> is_int16 center ->
  is_uint16 (deadzone cfg) -> is_uint16 (scale_divisor cfg) ->
  clamp16 (tick_delta cfg center invert raw) =
  condition_axis cfg center invert raw.
Proof.
  unfold is_int16, INT16_MIN, INT16_MAX. intros Hraw Hc Hdz Hdiv.
  assert (Hdz' : 0 <= deadzone cfg <= 65535) by exact Hdz.
  assert (Hdiv' : 0 <= scale_divisor cfg <= 65535) by exact Hdiv.
  unfold tick_delta, condition_axis, scale_value, div32, sub32.
  fold (effective_divisor (scale_divisor cfg)).
  rewrite (to_int32_small (raw - center))
    by (unfold is_int32, INT32_MIN, INT32_MAX; lia).
  rewrite apply_deadzone_policy
    by (unfold INT32_MIN, INT32_MAX; auto; lia).
  set (dead := deadzone_policy (raw - center) (deadzone cfg)).
  assert (Hdead : Z.abs dead <= 65535).
  { subst dead. unfold deadzone_policy.
    destruct (0 <? raw - center) eqn:Hpos;
      [ apply Z.ltb_lt in Hpos | apply Z.ltb_ge in Hpos ].
    - destruct (raw - center <=? deadzone cfg); lia.
    - destruct (raw - center <? 0) eqn:Hneg;
        [ apply Z.ltb_lt in Hneg | lia ].
      destruct (- (raw - center) <=? deadzone cfg); lia. }
  assert (Heff : 0 < effective_divisor (scale_divisor cfg)).
  { unfold effective_divisor.
    destruct (scale_divisor cfg =? 0) eqn:Hz;
      [ lia | apply Z.eqb_neq in Hz; lia ]. }
  pose proof (quot_abs_le dead _ Heff) as Hq.
  rewrite (to_int32_small (Z.quot dead _))
    by (unfold is_int32, INT32_MIN, INT32_MAX; lia).
  destruct invert; [ | reflexivity ].
  unfold neg32. rewrite to_int32_small
    by (unfold is_int32, INT32_MIN, INT32_MAX; lia).
  reflexivity.
Qed.

Section Tick.
Variable adc : nat -> adc_result.

Lemma joystick_read_axis_ok (ch : adc_channel) (out : Z) (n : nat) :
  adc_ok (adc n) = true ->
  joystick_read_axis adc ch out n =
  ((0, sample (adc n)), S n, [AdcSequenceInit ch; AdcRead ch]).
Proof.
  unfold adc_ok. intros H. apply andb_true_iff in H.
  destruct H as [Hi Hr].
  apply negb_true_iff in Hi. apply negb_true_iff in Hr.
  unfold joystick_read_axis.
  cbv beta iota delta [bind transfer call ret].
  rewrite Hi. cbv beta iota. rewrite Hr. reflexivity.
Qed.

Lemma joystick_read_axis_fail (ch : adc_channel) (out : Z) (n : nat) :
  adc_ok (adc n) = false ->
  value (joystick_read_axis adc ch out n) = (adc_err (adc n), out) /\
  transfers (joystick_read_axis adc ch out n) = S n /\
  (adc_err (adc n) <? 0) = true.
Proof.
  unfold adc_ok, adc_err, joystick_read_axis. intros H.
  cbv beta iota delta [bind transfer call ret].
  destruct (seq_init_ret (adc n) <? 0) eqn:Hi.
  - repeat split. exact Hi.
  - cbn in H. apply negb_false_iff in H.
    cbv beta iota. rewrite H. repeat split.
Qed.

Lemma joystick_report_run (dx dy : Z) (n : nat) :
  joystick_report dx dy n = (tt, n, emit_events (clamp16 dx) (clamp16 dy)).
Proof.
  unfold joystick_report, emit_events.
  cbv beta iota delta [bind call ret].
  rewrite !CLAMP_clamp16, !clamp16_zero.
  destruct (dx =? 0), (dy =? 0); reflexivity.
Qed.

(** A tick whose two conversions succeed. *)
Lemma work_cb_run (cfg : joystick_config) (data : joystick_data)
    (n : nat) :
  adc_ok (adc n) = true -> adc_ok (adc (S n)) = true ->
  trace (joystick_work_cb adc cfg data n) =
    [AdcSequenceInit X_ADC; AdcRead X_ADC;
     AdcSequenceInit Y_ADC; AdcRead Y_ADC]
    ++ emit_events
         (clamp16 (tick_delta cfg (center_x data) (invert_x cfg)
                     (sample (adc n))))
         (clamp16 (tick_delta cfg (center_y data) (invert_y cfg)
                     (sample (adc (S n)))))
    ++ [WorkSchedule (poll_interval_or_default (poll_interval_ms cfg))].
Proof.
  intros Hx Hy. unfold joystick_work_cb, bind, trace.
  rewrite (joystick_read_axis_ok X_ADC 0 n Hx).
  cbv beta iota delta [fst snd].
  change (0 <? 0) with false. cbv beta iota.
  rewrite (joystick_read_axis_ok Y_ADC 0 (S n) Hy).
  cbv beta iota delta [fst snd].
  change (0 <? 0) with false. cbv beta iota.
  rewrite joystick_report_run.
  unfold tick_delta, call. cbn [app]. reflexivity.
Qed.

(** C6. On a tick whose two conversions succeed, each axis is
    conditioned in the order: subtract the centre from the raw sample,
    apply the deadzone, divide by the scale divisor (1 for a configured
    0), negate when the axis is inverted, clamp to 16 bits; an axis is
    reported only when the result is not zero.  With centre (500, 500),
    deadzone 50, divisor 10 and no inversion, the reading (600, 500)
    produces one event, a relative-X event of value 5. *)
Theorem work_cb_conditions_axes (cfg : joystick_config)
    (data : joystick_data) (n : nat) :
  adc_ok (adc n) = true -> adc_ok (adc (S n)) = true ->
  is_int16 (sample (adc n)) -> is_int16 (sample (adc (S n))) ->
  is_int16 (center_x data) -> is_int16 (center_y data) ->
  is_uint16 (deadzone cfg) -> is_uint16 (scale_divisor cfg) ->
  trace (joystick_work_cb adc cfg data n) =
    [AdcSequenceInit X_ADC; AdcRead X_ADC;
     AdcSequenceInit Y_ADC; AdcRead Y_ADC]
    ++ emit_events
         (condition_axis cfg (center_x data) (invert_x cfg)
            (sample (adc n)))
         (condition_axis cfg (center_y data) (invert_y cfg)
            (sample (adc (S n))))
    ++ [WorkSchedule (poll_interval_or_default (poll_interval_ms cfg))] /\
  input_events
    (trace (joystick_work_cb (adc_of [600; 500])
              example_joystick_config example_joystick_data 0%nat)) =
    [InputReportRel INPUT_REL_X 5 true].
Proof.
  intros Hx Hy Hsx Hsy Hcx Hcy Hdz Hdiv. split.
  - rewrite (work_cb_run cfg data n Hx Hy).
    rewrite !tick_delta_condition by assumption.
    reflexivity.
  - vm_compute. reflexivity.
Qed.

End Tick.

Section Calibration.
Variable adc : nat -> adc_result.

Lemma sum_samples_bound (i n : nat) :
  adc_samples adc ->
  - (32768 * Z.of_nat i) <= sum_samples adc n i <= 32767 * Z.of_nat i.
Proof.
  intros Hs. revert n.
  induction i as [ | i IH]; intros n; cbn [sum_samples]; [ lia | ].
  specialize (IH (S (S n))).
  pose proof (Hs n) as Hn. unfold is_int16, INT16_MIN, INT16_MAX in Hn.
  lia.
Qed.

(** The loop when every conversion succeeds: [i] paired samples are
    taken and added to the two sums. *)
Lemma calibrate_loop_ok (i : nat) :
  forall (sum_x sum_y : Z) (n : nat),
  adc_samples adc ->
  (forall k, (k < 2 * i)%nat -> adc_ok (adc (n + k)%nat) = true) ->
  Z.abs sum_x + 32768 * Z.of_nat i < 2 ^ 62 ->
  Z.abs sum_y + 32768 * Z.of_nat i < 2 ^ 62 ->
  calibrate_loop adc i sum_x sum_y n =
  (inr (sum_x + sum_samples adc n i, sum_y + sum_samples adc (S n) i),
   (n + 2 * i)%nat, paired_sample_calls i).
Proof.
  induction i as [ | i IH]; intros sum_x sum_y n Hs Hok Hbx Hby.
  - cbn. rewrite !Z.add_0_r, Nat.add_0_r. reflexivity.
  - assert (H0 : adc_ok (adc n) = true)
      by (rewrite <- (Nat.add_0_r n); apply Hok; lia).
    assert (H1 : adc_ok (adc (S n)) = true)
      by (replace (S n) with (n + 1)%nat by lia; apply Hok; lia).
    pose proof (Hs n) as Hsn. pose proof (Hs (S n)) as Hsn1.
    unfold is_int16, INT16_MIN, INT16_MAX in Hsn, Hsn1.
    change (2 ^ 62) with 4611686018427387904 in *.
    cbn [calibrate_loop paired_sample_calls]. unfold bind at 1.
    rewrite (joystick_read_axis_ok adc X_ADC 0 n H0).
    cbv beta iota delta [fst snd]. change (0 <? 0) with false.
    cbv beta iota. unfold bind at 1.
    rewrite (joystick_read_axis_ok adc Y_ADC 0 (S n) H1).
    cbv beta iota delta [fst snd]. change (0 <? 0) with false.
    cbv beta iota. unfold bind at 1. unfold call at 1.
    unfold add64.
    rewrite !to_int64_small
      by (change (2 ^ 63) with 9223372036854775808; lia).
    rewrite IH; [ | exact Hs | | lia | lia ].
    + cbn [sum_samples app]. rewrite !Z.add_assoc.
      replace (S (S n) + 2 * i)%nat with (n + 2 * S i)%nat by lia.
      reflexivity.
    + intros k Hk.
      replace (S (S n) + k)%nat with (n + (2 + k))%nat by lia.
      apply Hok. lia.
Qed.

(** The loop when a conversion fails: the status of the first failure
    is returned. *)
Lemma calibrate_loop_first_error (i : nat) :
  forall (sum_x sum_y : Z) (n k : nat),
  (k < 2 * i)%nat ->
  adc_ok (adc (n + k)%nat) = false ->
  (forall j, (j < k)%nat -> adc_ok (adc (n + j)%nat) = true) ->
  value (calibrate_loop adc i sum_x sum_y n) =
    inl (adc_err (adc (n + k)%nat)).
Proof.
  induction i as [ | i IH]; intros sum_x sum_y n k Hk Hfail Hbefore.
  - lia.
  - cbn [calibrate_loop]. unfold bind at 1.
    destruct k as [ | [ | k]].
    + rewrite Nat.add_0_r in *.
      destruct (joystick_read_axis_fail adc X_ADC 0 n Hfail)
        as [Hv [_ Hneg]].
      destruct (joystick_read_axis adc X_ADC 0 n) as [[[e o] n1] t1].
      cbn in Hv. inversion Hv; subst e o.
      cbn [fst snd]. rewrite Hneg. reflexivity.
    + assert (H0 : adc_ok (adc n) = true)
        by (rewrite <- (Nat.add_0_r n); apply Hbefore; lia).
      replace (n + 1)%nat with (S n) in Hfail by lia.
      rewrite (joystick_read_axis_ok adc X_ADC 0 n H0).
      cbv beta iota delta [fst snd]. change (0 <? 0) with false.
      cbv beta iota. unfold bind at 1.
      destruct (joystick_read_axis_fail adc Y_ADC 0 (S n) Hfail)
        as [Hv [_ Hneg]].
      destruct (joystick_read_axis adc Y_ADC 0 (S n)) as [[[e o] n1] t1].
      cbn in Hv. inversion Hv; subst e o.
      cbn [fst snd]. rewrite Hneg.
      replace (n + 1)%nat with (S n) by lia. reflexivity.
    + assert (H0 : adc_ok (adc n) = true)
        by (rewrite <- (Nat.add_0_r n); apply Hbefore; lia).
      assert (H1 : adc_ok (adc (S n)) = true)
        by (replace (S n) with (n + 1)%nat by lia; apply Hbefore; lia).
      rewrite (joystick_read_axis_ok adc X_ADC 0 n H0).
      cbv beta iota delta [fst snd]. change (0 <? 0) with false.
      cbv beta iota. unfold bind at 1.
      rewrite (joystick_read_axis_ok adc Y_ADC 0 (S n) H1).
      cbv beta iota delta [fst snd]. change (0 <? 0) with false.
      cbv beta iota. unfold bind at 1. unfold call at 1.
      replace (n + S (S k))%nat with (S (S n) + k)%nat in * by lia.
      specialize (IH (add64 sum_x (sample (adc n)))
                     (add64 sum_y (sample (adc (S n))))
                     (S (S n)) k).
      unfold value in IH.
      destruct (calibrate_loop adc i _ _ (S (S n))) as [[v n2] t2].
      cbn [fst snd] in *. rewrite IH; [ reflexivity | lia | exact Hfail | ].
      intros j Hj.
      replace (S (S n) + j)%nat with (n + (2 + j))%nat by lia.
      apply Hbefore. lia.
Qed.

(** C7. [joystick_calibrate] takes exactly 8 paired samples, X before
    Y, 2 ms apart.  When the 16 conversions succeed each centre becomes
    the sum of the 8 samples of its axis divided by 8, truncated toward
    zero: the X samples 10, 12, 8, 14, 9, 11, 13, 7 give the centre 10.
    When a conversion fails, the status of the first failure is
    returned and the instance data, centres included, is unchanged. *)
Theorem calibrate_mean_or_first_error (data : joystick_data) (n : nat) :
  adc_samples adc ->
  let r := joystick_calibrate adc data n in
  ((forall k, (k < 16)%nat -> adc_ok (adc (n + k)%nat) = true) ->
   value r =
     (0, {| dev := dev data;
            center_x := Z.quot (sum_samples adc n 8) 8;
            center_y := Z.quot (sum_samples adc (S n) 8) 8 |}) /\
   trace r = paired_sample_calls 8 /\
   transfers r = (n + 16)%nat /\
   is_int16 (center_x (snd (value r))) /\
   is_int16 (center_y (snd (value r)))) /\
  (forall k, (k < 16)%nat ->
   adc_ok (adc (n + k)%nat) = false ->
   (forall j, (j < k)%nat -> adc_ok (adc (n + j)%nat) = true) ->
   value r = (adc_err (adc (n + k)%nat), data) /\
   adc_err (adc (n + k)%nat) < 0) /\
  center_x
    (snd (value (joystick_calibrate calibration_example_adc
                   {| dev := None; center_x := 0; center_y := 0 |}
                   0%nat))) = 10.
Proof.
  intros Hs r. split; [ | split ].
  - intros Hok. subst r. unfold joystick_calibrate, bind, value, trace,
      transfers.
    rewrite (calibrate_loop_ok 8 0 0 n Hs Hok)
      by (vm_compute; reflexivity).
    cbv beta iota delta [ret fst snd].
    rewrite !Z.add_0_l, app_nil_r.
    pose proof (sum_samples_bound 8 n Hs) as Hbx.
    pose proof (sum_samples_bound 8 (S n) Hs) as Hby.
    change (Z.of_nat 8) with 8 in Hbx, Hby.
    assert (Hqx : -32768 <= Z.quot (sum_samples adc n 8) 8 <= 32767)
      by (Z.to_euclidean_division_equations; lia).
    assert (Hqy : -32768 <= Z.quot (sum_samples adc (S n) 8) 8 <= 32767)
      by (Z.to_euclidean_division_equations; lia).
    unfold div64.
    rewrite !to_int64_small
      by (change (2 ^ 63) with 9223372036854775808; lia).
    rewrite !to_int32_small
      by (unfold is_int32, INT32_MIN, INT32_MAX; lia).
    unfold is_int16, INT16_MIN, INT16_MAX. cbn [center_x center_y].
    repeat split; lia.
  - intros k Hk Hfail Hbefore. subst r.
    pose proof (calibrate_loop_first_error 8 0 0 n k Hk Hfail Hbefore)
      as Hloop.
    unfold joystick_calibrate, bind, value in *.
    destruct (calibrate_loop adc 8 0 0 n) as [[v n1] t1].
    cbn [fst snd] in Hloop. subst v. cbn [ret fst snd].
    split; [ reflexivity | ].
    apply Z.ltb_lt. unfold adc_ok, adc_err in *.
    destruct (seq_init_ret (adc (n + k)%nat) <? 0) eqn:Hi;
      [ exact Hi | ].
    cbn in Hfail. now apply negb_false_iff in Hfail.
  - vm_compute. reflexivity.
Qed.

End Calibration.

Lemma adc_of_samples (l : list Z) :
  Forall is_int16 l -> adc_samples (adc_of l).
Proof.
  intros Hl k. unfold adc_of.
  destruct (nth_error l k) as [s | ] eqn:Hk; cbn.
  - apply nth_error_In in Hk.
    rewrite Forall_forall in Hl. now apply Hl.
  - unfold is_int16, INT16_MIN, INT16_MAX. lia.
Qed.

Lemma adc_of_ok (l : list Z) (k : nat) :
  (k < length l)%nat -> adc_ok (adc_of l k) = true.
Proof.
  intros Hk. unfold adc_of.
  destruct (nth_error l k) as [s | ] eqn:Hnth; [ reflexivity | ].
  apply nth_error_None in Hnth. lia.
Qed.

Lemma calibration_example_samples : adc_samples calibration_example_adc.
Proof.
  apply adc_of_samples.
  repeat constructor; unfold INT16_MIN, INT16_MAX; lia.
Qed.

(** A threshold of 50 brings the centered value 120 to 70. *)
Lemma apply_deadzone_sign_and_size_witness :
  INT32_MIN < 120 <= INT32_MAX /\ is_uint16 50 /\
  Z.abs (apply_deadzone 120 50) = Z.max 0 (Z.abs 120 - 50).
Proof.
  assert (Hv : INT32_MIN < 120 <= INT32_MAX)
    by (unfold INT32_MIN, INT32_MAX; lia).
  assert (Hd : is_uint16 50) by (unfold is_uint16; lia).
  split; [ exact Hv | split; [ exact Hd | ] ].
  exact (proj1 (proj2 (apply_deadzone_sign_and_size 120 50 Hv Hd))).
Defined.

(** The end-to-end example of the tick, through the general statement. *)
Lemma work_cb_conditions_axes_witness :
  adc_ok (adc_of [600; 500] 0%nat) = true /\
  adc_ok (adc_of [600; 500] 1%nat) = true /\
  trace (joystick_work_cb (adc_of [600; 500])
           example_joystick_config example_joystick_data 0%nat) =
    [AdcSequenceInit X_ADC; AdcRead X_ADC;
     AdcSequenceInit Y_ADC; AdcRead Y_ADC]
    ++ emit_events
         (condition_axis example_joystick_config 500 false 600)
         (condition_axis example_joystick_config 500 false 500)
    ++ [WorkSchedule 10].
Proof.
  split; [ reflexivity | split; [ reflexivity | ] ].
  refine (proj1 (work_cb_conditions_axes (adc_of [600; 500])
                   example_joystick_config example_joystick_data 0%nat
                   _ _ _ _ _ _ _ _));
    try reflexivity;
    unfold is_int16, is_uint16, INT16_MIN, INT16_MAX; cbn; lia.
Defined.

(** Calibration on the example converter, and on one whose fourth
    conversion fails. *)
Lemma calibrate_mean_or_first_error_witness :
  adc_samples calibration_example_adc /\
  value (joystick_calibrate calibration_example_adc
           {| dev := None; center_x := 0; center_y := 0 |} 0%nat) =
    (0, {| dev := None;
           center_x := Z.quot (sum_samples calibration_example_adc 0 8) 8;
           center_y := Z.quot (sum_samples calibration_example_adc 1 8) 8 |}).
Proof.
  split; [ exact calibration_example_samples | ].
  refine (proj1 (proj1 (calibrate_mean_or_first_error
                          calibration_example_adc
                          {| dev := None; center_x := 0; center_y := 0 |}
                          0%nat calibration_example_samples) _)).
  intros k Hk. apply adc_of_ok. cbn. lia.
Defined.

End JoystickFacts.

(** * Properties of the two pollers *)

Module PollerFacts.
Import CInt Zephyr Script Design.

Lemma no_report_no_input_event (t : list action) :
  (forall c v s, ~ In (InputReportRel c v s) t) -> input_events t = [].
Proof.
  induction t as [ | a t IH]; intros Hno; [ reflexivity | ].
  unfold input_events in *. cbn [filter].
  destruct a as [ | | | | | | | c0 v0 s0 | | ]; cbn;
    try (apply IH; intros c v s Hin; apply (Hno c v s); now right).
  exfalso. apply (Hno c0 v0 s0). now left.
Qed.

Lemma schedules_app (t u : list action) :
  schedules (t ++ u) = schedules t ++ schedules u.
Proof. apply filter_app. Qed.

Lemma emit_events_no_schedule (dx dy : Z) :
  schedules (emit_events dx dy) = [].
Proof.
  unfold emit_events. destruct (dx =? 0), (dy =? 0); reflexivity.
Qed.

Section Sensor.
Import Pmw3360 Pmw3360Facts.
Variable bus : nat -> spi_result.

Lemma work_handler_reschedules (cfg : pmw3360_config) (n : nat) :
  exists t,
    trace (pmw3360_work_handler bus cfg n) =
      t ++ [WorkSchedule (polling_interval_ms cfg)] /\
    schedules t = [].
Proof.
  rewrite work_handler_run. rewrite app_assoc.
  eexists. split; [ reflexivity | ].
  rewrite schedules_app, read_motion_no_schedule.
  destruct (_ && _); reflexivity.
Qed.

Lemma work_handler_events (cfg : pmw3360_config) (n : nat) (dx dy : Z) :
  value (pmw3360_read_motion bus 0 0 n) = (true, dx, dy) ->
  input_events (trace (pmw3360_work_handler bus cfg n)) =
    if (dx =? 0) && (dy =? 0) then []
    else [InputReportRel INPUT_REL_X dx false;
          InputReportRel INPUT_REL_Y dy true].
Proof.
  intros Hv. rewrite work_handler_run, Hv. cbn [fst snd andb].
  unfold input_events. rewrite !filter_app.
  fold (input_events (trace (pmw3360_read_motion bus 0 0 n))).
  rewrite no_report_no_input_event
    by (intros c v s; apply read_motion_no_report).
  destruct (dx =? 0), (dy =? 0); reflexivity.
Qed.

End Sensor.

Section Stick.
Import Joystick JoystickFacts.
Variable adc : nat -> adc_result.

Lemma joystick_read_axis_run (ch : adc_channel) (out : Z) (n : nat) :
  joystick_read_axis adc ch out n =
  if seq_init_ret (adc n) <? 0 then
    ((seq_init_ret (adc n), out), S n, [AdcSequenceInit ch])
  else if read_ret (adc n) <? 0 then
    ((read_ret (adc n), out), S n, [AdcSequenceInit ch; AdcRead ch])
  else ((0, sample (adc n)), S n, [AdcSequenceInit ch; AdcRead ch]).
Proof.
  unfold joystick_read_axis.
  cbv beta iota delta [bind transfer call ret].
  destruct (seq_init_ret (adc n) <? 0); [ reflexivity | ].
  cbv beta iota.
  destruct (read_ret (adc n) <? 0); reflexivity.
Qed.

Lemma work_cb_reschedules (cfg : joystick_config) (data : joystick_data)
    (n : nat) :
  exists t,
    trace (joystick_work_cb adc cfg data n) =
      t ++ [WorkSchedule (poll_interval_or_default (poll_interval_ms cfg))] /\
    schedules t = [].
Proof.
  unfold joystick_work_cb, trace.
  cbv beta iota delta [bind].
  rewrite (joystick_read_axis_run X_ADC 0 n).
  destruct (seq_init_ret (adc n) <? 0) eqn:Hxi;
    [ cbv beta iota delta [fst snd call]; rewrite Hxi;
      rewrite ?app_assoc; eexists; split; reflexivity | ].
  destruct (read_ret (adc n) <? 0) eqn:Hxr;
    [ cbv beta iota delta [fst snd call]; rewrite Hxr;
      rewrite ?app_assoc; eexists; split; reflexivity | ].
  cbv beta iota delta [fst snd]. change (0 <? 0) with false.
  cbv beta iota.
  rewrite (joystick_read_axis_run Y_ADC 0 (S n)).
  destruct (seq_init_ret (adc (S n)) <? 0) eqn:Hyi;
    [ cbv beta iota delta [fst snd call]; rewrite Hyi;
      rewrite ?app_assoc; eexists; split; reflexivity | ].
  destruct (read_ret (adc (S n)) <? 0) eqn:Hyr;
    [ cbv beta iota delta [fst snd call]; rewrite Hyr;
      rewrite ?app_assoc; eexists; split; reflexivity | ].
  cbv beta iota delta [fst snd]. change (0 <? 0) with false.
  cbv beta iota.
  rewrite joystick_report_run. cbv beta iota delta [call].
  rewrite !app_assoc.
  eexists. split; [ reflexivity | ].
  rewrite !schedules_app, emit_events_no_schedule. reflexivity.
Qed.

Lemma work_cb_reports (cfg : joystick_config) (data : joystick_data)
    (n : nat) :
  adc_ok (adc n) = true -> adc_ok (adc (S n)) = true ->
  reports_nonzero_axes (trace (joystick_work_cb adc cfg data n))
    (tick_delta cfg (center_x data) (invert_x cfg) (sample (adc n)))
    (tick_delta cfg (center_y data) (invert_y cfg) (sample (adc (S n)))).
Proof.
  intros Hx Hy. rewrite (work_cb_run adc cfg data n Hx Hy).
  set (dx := tick_delta cfg (center_x data) (invert_x cfg) (sample (adc n))).
  set (dy := tick_delta cfg (center_y data) (invert_y cfg)
               (sample (adc (S n)))).
  unfold reports_nonzero_axes, emit_events. rewrite !clamp16_zero.
  destruct (dx =? 0) eqn:Hdx; destruct (dy =? 0) eqn:Hdy;
    (apply Z.eqb_eq in Hdx || apply Z.eqb_neq in Hdx);
    (apply Z.eqb_eq in Hdy || apply Z.eqb_neq in Hdy);
    cbn [app reports input_events filter is_report rel_code_eqb orb].
  all: repeat split; intros;
    try congruence; try discriminate;
    try (eexists; eexists; reflexivity).
  all: intro Hin; cbn in Hin;
       repeat (destruct Hin as [Hin | Hin];
               [ try discriminate Hin;
                 injection Hin as _ Hz _;
                 apply Z.eqb_eq in Hz; rewrite clamp16_zero in Hz;
                 apply Z.eqb_eq in Hz; contradiction | ]);
       contradiction.
Qed.

End Stick.

(** C1 (amended). A joystick tick whose conversions succeed reports
    each axis exactly when its delta is not zero, the X event announcing
    the Y event when both are reported, and never reports the value 0.
    A sensor tick whose sampling succeeds reports nothing when both
    deltas are zero and otherwise reports both axes, X announcing Y and Y
    closing the batch, whatever the two values are. *)
Theorem tick_reports_per_driver
    (adc : nat -> Joystick.adc_result) (jcfg : Joystick.joystick_config)
    (jdata : Joystick.joystick_data) (m : nat)
    (bus : nat -> Pmw3360.spi_result) (cfg : Pmw3360.pmw3360_config)
    (n : nat) :
  (Joystick.adc_ok (adc m) = true -> Joystick.adc_ok (adc (S m)) = true ->
   reports_nonzero_axes
     (trace (Joystick.joystick_work_cb adc jcfg jdata m))
     (tick_delta jcfg (Joystick.center_x jdata) (Joystick.invert_x jcfg)
        (Joystick.sample (adc m)))
     (tick_delta jcfg (Joystick.center_y jdata) (Joystick.invert_y jcfg)
        (Joystick.sample (adc (S m))))) /\
  (forall dx dy,
   value (Pmw3360.pmw3360_read_motion bus 0 0 n) = (true, dx, dy) ->
   input_events (trace (Pmw3360.pmw3360_work_handler bus cfg n)) =
     if (dx =? 0) && (dy =? 0) then []
     else [InputReportRel INPUT_REL_X dx false;
           InputReportRel INPUT_REL_Y dy true]).
Proof.
  split.
  - apply work_cb_reports.
  - intros dx dy. apply work_handler_events.
Qed.

(** C3 (amended). Every tick of either driver ends by re-arming the
    poller, and re-arms it once, whatever the sampling did.  The sensor
    uses its configured interval as it is, zero included, and an
    unconfigured sensor is instantiated with 4; the joystick uses its
    configured interval, or 10 when that is zero, and an unconfigured
    joystick is instantiated with 10. *)
Theorem tick_reschedules_per_driver
    (adc : nat -> Joystick.adc_result) (jcfg : Joystick.joystick_config)
    (jdata : Joystick.joystick_data) (m : nat)
    (bus : nat -> Pmw3360.spi_result) (cfg : Pmw3360.pmw3360_config)
    (n : nat) :
  (exists t,
     trace (Pmw3360.pmw3360_work_handler bus cfg n) =
       t ++ [WorkSchedule (Pmw3360.polling_interval_ms cfg)] /\
     schedules t = []) /\
  (exists t,
     trace (Joystick.joystick_work_cb adc jcfg jdata m) =
       t ++ [WorkSchedule
               (if 0 <? Joystick.poll_interval_ms jcfg
                then Joystick.poll_interval_ms jcfg else 10)] /\
     schedules t = []) /\
  (forall ready cpi_prop,
     Pmw3360.polling_interval_ms (Pmw3360.PMW3360_INST ready None cpi_prop)
       = 4 /\
     Pmw3360.polling_interval_ms
       (Pmw3360.PMW3360_INST ready (Some 0) cpi_prop) = 0) /\
  (forall dz sd ix iy,
     Joystick.poll_interval_or_default
       (Joystick.poll_interval_ms
          (Joystick.JOYSTICK_ANALOG_INST None dz sd ix iy)) = 10 /\
     Joystick.poll_interval_or_default
       (Joystick.poll_interval_ms
          (Joystick.JOYSTICK_ANALOG_INST (Some 0) dz sd ix iy)) = 10).
Proof.
  split; [ | split; [ | split ] ].
  - apply work_handler_reschedules.
  - destruct (work_cb_reschedules adc jcfg jdata m) as [t [Ht Hs]].
    exists t. split; [ | exact Hs ].
    rewrite Ht. unfold Joystick.poll_interval_or_default.
    rewrite Z.gtb_ltb. reflexivity.
  - intros ready cpi_prop. split; reflexivity.
  - intros dz sd ix iy. split; reflexivity.
Qed.

(** Both parts of the statement at work: the joystick of the example
    moved along X only, and the sensor moved along X only. *)
Lemma tick_reports_per_driver_witness :
  Joystick.adc_ok (adc_of [600; 500] 0%nat) = true /\
  Joystick.adc_ok (adc_of [600; 500] 1%nat) = true /\
  value (Pmw3360.pmw3360_read_motion x_only_bus 0 0 0%nat) = (true, 16, 0) /\
  reports_nonzero_axes
    (trace (Joystick.joystick_work_cb (adc_of [600; 500])
              example_joystick_config example_joystick_data 0%nat))
    (tick_delta example_joystick_config 500 false 600)
    (tick_delta example_joystick_config 500 false 500) /\
  input_events
    (trace (Pmw3360.pmw3360_work_handler x_only_bus zero_interval_config
              0%nat)) =
    [InputReportRel INPUT_REL_X 16 false; InputReportRel INPUT_REL_Y 0 true].
Proof.
  split; [ reflexivity | ].
  split; [ reflexivity | ].
  split; [ reflexivity | ].
  split.
  - apply (proj1 (tick_reports_per_driver (adc_of [600; 500])
                    example_joystick_config example_joystick_data 0%nat
                    x_only_bus zero_interval_config 0%nat));
      reflexivity.
  - apply (proj2 (tick_reports_per_driver (adc_of [600; 500])
                    example_joystick_config example_joystick_data 0%nat
                    x_only_bus zero_interval_config 0%nat) 16 0).
    reflexivity.
Defined.

(** C1, as the document states it, fails for the sensor: a motion along
    X only is sampled as (16, 0), and the tick reports the Y axis with the
    value 0. *)
Lemma work_handler_reports_zero_axis :
  value (Pmw3360.pmw3360_read_motion x_only_bus 0 0 0%nat) = (true, 16, 0) /\
  In (InputReportRel INPUT_REL_Y 0 true)
     (trace (Pmw3360.pmw3360_work_handler x_only_bus zero_interval_config
               0%nat)) /\
  ~ reports_nonzero_axes
      (trace (Pmw3360.pmw3360_work_handler x_only_bus zero_interval_config
                0%nat))
      16 0.
Proof.
  split; [ reflexivity | ].
  split; [ vm_compute; tauto | ].
  intros [_ [[Hy _] _]].
  apply Hy; [ vm_compute; discriminate | reflexivity ].
Qed.

(** C3, as the document states it, fails for the sensor: with a polling
    interval of 0 the tick re-arms the poller after 0, not after 10. *)
Lemma work_handler_keeps_zero_interval :
  schedules
    (trace (Pmw3360.pmw3360_work_handler x_only_bus zero_interval_config
              0%nat)) = [WorkSchedule 0] /\
  ~ reschedules_with_default
      (trace (Pmw3360.pmw3360_work_handler x_only_bus zero_interval_config
                0%nat))
      (Pmw3360.polling_interval_ms zero_interval_config).
Proof.
  split; [ reflexivity | ].
  unfold reschedules_with_default. vm_compute. intros H. discriminate H.
Qed.

End PollerFacts.

(** * Further properties of the sensor driver *)

Module SensorExtra.
Import CInt Zephyr Pmw3360 Script Design Discipline Pmw3360Facts.

Lemma to_int16_range (z : Z) : is_int16 (to_int16 z).
Proof.
  unfold is_int16, to_int16, INT16_MIN, INT16_MAX.
  pose proof (Z.mod_pos_bound (z + 32768) 65536 ltac:(lia)). lia.
Qed.

Lemma bus_run_app (t u : list action) :
  forall s,
  bus_run s (t ++ u) =
  match bus_run s t with
  | Some s' => bus_run s' u
  | None => None
  end.
Proof.
  induction t as [ | a t IH]; intros s; [ reflexivity | ].
  destruct a; destruct s; cbn [app bus_run]; auto.
Qed.

Lemma busy_time_app (t u : list action) :
  busy_time (t ++ u) = busy_time t + busy_time u.
Proof.
  unfold busy_time.
  induction t as [ | a t IH]; [ reflexivity | ].
  destruct a; cbn [app waits fold_right] in *; lia.
Qed.

Lemma read_only_app (t u : list action) :
  read_only (t ++ u) = read_only t && read_only u.
Proof. apply forallb_app. Qed.

Section Sampling.
Variable bus : nat -> spi_result.

(** What every run of [pmw3360_read_motion] keeps, by cases on the
    transfers it makes. *)
Lemma read_motion_discipline (dx dy : Z) (n : nat) :
  let r := pmw3360_read_motion bus dx dy n in
  bus_run Released (trace r) = Some Released /\
  read_only (trace r) = true /\
  0 <= busy_time (trace r) <= 895 /\
  (n < transfers r <= n + 10)%nat /\
  (fst (fst (value r)) = true ->
   busy_time (trace r) = 895 /\ transfers r = (n + 10)%nat /\
   is_int16 (snd (fst (value r))) /\ is_int16 (snd (value r))) /\
  (fst (fst (value r)) = false ->
   snd (fst (value r)) = dx /\ snd (value r) = dy).
Proof.
  cbv zeta.
  unfold pmw3360_read_motion, value, trace, transfers.
  cbv beta iota delta [bind].
  repeat (match goal with
          | H : (spi_ret (bus ?k) =? 0) = _
            |- context [spi_ret (bus ?k) =? 0] => rewrite H
          | |- context [pmw3360_reg_read bus ?r ?v ?m] =>
              rewrite (reg_read_run bus r v m)
          | |- context [if spi_ret (bus ?k) =? 0 then _ else _] =>
              destruct (spi_ret (bus k) =? 0) eqn:?
          | |- context [if Z.land ?a 128 =? 0 then _ else _] =>
              destruct (Z.land a 128 =? 0) eqn:?
          end;
          cbv beta iota delta [fst snd negb andb ret]).
  all: split; [ reflexivity | ].
  all: split; [ reflexivity | ].
  all: split;
         [ unfold busy_time, reg_read_calls; cbn [waits fold_right app]; lia
         | ].
  all: split; [ lia | ].
  all: split; intros Hok; try discriminate Hok.
  all: try (split; reflexivity).
  all: split; [ reflexivity | ].
  all: split; [ lia | ].
  all: split; apply to_int16_range.
Qed.

Lemma work_handler_transfers (cfg : pmw3360_config) (n : nat) :
  transfers (pmw3360_work_handler bus cfg n) =
  transfers (pmw3360_read_motion bus 0 0 n).
Proof.
  unfold pmw3360_work_handler, bind, transfers.
  destruct (pmw3360_read_motion bus 0 0 n) as [[[[ok dx] dy] n1] t1].
  cbn [fst snd].
  destruct (ok && (negb (dx =? 0) || negb (dy =? 0))); reflexivity.
Qed.

(** The run of [pmw3360_init], by cases on the readiness of the bus and
    on its first five transfers. *)
Lemma init_cases (d : nat) (cfg : pmw3360_config) (data : pmw3360_data)
    (n : nat) :
  let r := pmw3360_init bus d cfg data n in
  value r =
    (if negb (spi_ready cfg) then (- ENODEV, data)
     else if negb (spi_ret (bus n) =? 0) then (- EIO, data)
     else if negb (reg_read_ok bus (1 + n) && reg_read_ok bus (3 + n))
          then (- EIO, data)
     else if negb ((reg_read_byte bus (1 + n) =? 0x42)
                   && (reg_read_byte bus (3 + n) =? 0x01))
          then (- ENODEV, data)
     else (0, {| dev := Some d |})) /\
  bus_run Released (trace r) = Some Released /\
  0 <= busy_time (trace r) <= 898 /\
  (n <= transfers r <= 7 + n)%nat /\
  (spi_ready cfg = false -> trace r = [] /\ transfers r = n) /\
  ((spi_ret (bus n) =? 0) = false ->
   forall us, In (MSleep us) (trace r) -> False).
Proof.
  cbv zeta.
  unfold pmw3360_init, pmw3360_set_cpi, reg_read_ok, reg_read_byte,
    value, trace, transfers.
  destruct (spi_ready cfg).
  2:{ cbn. repeat split; try lia; try discriminate. }
  cbv beta iota delta [bind Nat.add negb andb orb].
  repeat (match goal with
          | H : (?a =? ?b) = _ |- context [?a =? ?b] => rewrite H
          | |- context [pmw3360_reg_read bus ?r ?v ?m] =>
              rewrite (reg_read_run bus r v m)
          | |- context [pmw3360_reg_write bus ?r ?v ?m] =>
              rewrite (reg_write_run bus r v m)
          | |- context [if spi_ret (bus ?k) =? 0 then _ else _] =>
              destruct (spi_ret (bus k) =? 0) eqn:?
          | |- context [if spi_rx (bus ?k) =? ?c then _ else _] =>
              destruct (spi_rx (bus k) =? c) eqn:?
          end;
          cbv beta iota delta [fst snd negb andb orb ret call]).
  all: split; [ reflexivity | ].
  all: split; [ reflexivity | ].
  all: split;
         [ unfold busy_time, reg_read_calls, reg_write_calls;
           cbn [waits fold_right app]; lia | ].
  all: split; [ lia | ].
  all: split; [ intros Hr; discriminate Hr | ].
  all: intros Hw; try discriminate Hw.
  all: intros us Hin; cbn in Hin;
       repeat (destruct Hin as [Hin | Hin]; [ discriminate Hin | ]);
       exact Hin.
Qed.

End Sampling.

Section Frames.
Variable bus : nat -> spi_result.

(** X1. The frame of a register write is the register with the top bit
    set, and the low seven bits of that frame are the address a read of
    the same register puts on the bus: the two frames of a register differ
    in the top bit only.  The write returns the status of its transfer and
    waits 35 and 145 whether or not the transfer succeeded. *)
Theorem reg_write_frame_decodes (reg val : Z) (n : nat) :
  exists w,
    pmw3360_reg_write bus reg val n =
      (spi_ret (bus n), S n,
       [SpiWriteHold [w; val]; BusyWait 35; SpiRelease; BusyWait 145]) /\
    is_uint8 w /\
    Z.testbit w 7 = true /\
    Z.land w 0x7F = reg mod 128 /\
    hd SpiRelease (trace (pmw3360_reg_read bus reg 0 n)) =
      SpiWriteHold [Z.land w 0x7F].
Proof.
  exists (to_uint8 (Z.lor reg 0x80)).
  assert (Hw : to_uint8 (Z.lor reg 0x80) = Z.land (Z.lor reg 0x80) 255).
  { unfold to_uint8. change 256 with (2 ^ 8).
    rewrite <- Z.land_ones by lia. reflexivity. }
  assert (Hlow : Z.land (to_uint8 (Z.lor reg 0x80)) 0x7F = Z.land reg 0x7F).
  { rewrite Hw, <- Z.land_assoc. change (Z.land 255 127) with 127.
    rewrite Z.land_lor_distr_l. change (Z.land 128 127) with 0.
    apply Z.lor_0_r. }
  split; [ reflexivity | ].
  split.
  { unfold is_uint8, to_uint8.
    pose proof (Z.mod_pos_bound (Z.lor reg 128) 256 ltac:(lia)). lia. }
  split.
  { rewrite Hw, Z.land_spec, Z.lor_spec.
    change (Z.testbit 128 7) with true. change (Z.testbit 255 7) with true.
    rewrite orb_true_r. reflexivity. }
  split.
  { rewrite Hlow. change 127 with (Z.ones 7).
    rewrite Z.land_ones by lia. reflexivity. }
  rewrite Hlow, reg_read_run.
  destruct (spi_ret (bus n) =? 0); reflexivity.
Qed.

(** X2. Every entry point of the driver respects the bus: a transaction
    opens with a write on a released bus, reads only on a held bus, and
    the bus is released again when the entry point returns, on error paths
    as on success. *)
Theorem sensor_respects_bus (d : nat) (cfg : pmw3360_config)
    (data : pmw3360_data) (reg val : Z) (n : nat) :
  bus_run Released (trace (pmw3360_reg_read bus reg val n)) = Some Released /\
  bus_run Released (trace (pmw3360_reg_write bus reg val n)) = Some Released /\
  bus_run Released (trace (pmw3360_set_cpi bus cfg n)) = Some Released /\
  bus_run Released (trace (pmw3360_read_motion bus 0 0 n)) = Some Released /\
  bus_run Released (trace (pmw3360_work_handler bus cfg n)) = Some Released /\
  bus_run Released (trace (pmw3360_init bus d cfg data n)) = Some Released.
Proof.
  pose proof (read_motion_discipline bus 0 0 n) as [Hrm _].
  split;
    [ rewrite reg_read_run; destruct (spi_ret (bus n) =? 0); reflexivity | ].
  split; [ reflexivity | ].
  split; [ reflexivity | ].
  split; [ exact Hrm | ].
  split; [ | apply init_cases ].
  rewrite work_handler_run, bus_run_app, Hrm.
  destruct (_ && _); reflexivity.
Qed.

(** X3. A tick busy-waits at most 895 microseconds and makes between one
    and ten transfers; bring-up busy-waits at most 898 microseconds and
    makes at most seven. *)
Theorem sensor_time_budget (d : nat) (cfg : pmw3360_config)
    (data : pmw3360_data) (n : nat) :
  0 <= busy_time (trace (pmw3360_work_handler bus cfg n)) <= 895 /\
  (n < transfers (pmw3360_work_handler bus cfg n) <= n + 10)%nat /\
  0 <= busy_time (trace (pmw3360_init bus d cfg data n)) <= 898 /\
  (n <= transfers (pmw3360_init bus d cfg data n) <= n + 7)%nat.
Proof.
  pose proof (read_motion_discipline bus 0 0 n) as [_ [_ [Hb [Ht _]]]].
  pose proof (init_cases bus d cfg data n) as [_ [_ [Hib [Hit _]]]].
  split; [ | split; [ | split; [ assumption | lia ] ] ].
  - rewrite work_handler_run, !busy_time_app.
    replace (busy_time (if _ && _ then _ else _)) with 0
      by (destruct (_ && _); reflexivity).
    change (busy_time [WorkSchedule (polling_interval_ms cfg)]) with 0. lia.
  - rewrite work_handler_transfers. exact Ht.
Qed.

(** X4. A tick never writes a register of the sensor: every frame it puts
    on the bus is a single byte with the top bit clear. *)
Theorem tick_is_read_only (cfg : pmw3360_config) (n : nat) :
  read_only (trace (pmw3360_work_handler bus cfg n)) = true.
Proof.
  pose proof (read_motion_discipline bus 0 0 n) as [_ [Hro _]].
  rewrite work_handler_run, !read_only_app, Hro.
  match goal with
  | |- context [if ?c then _ else _] => destruct c
  end; reflexivity.
Qed.

(** The condition under which a sample is delivered needs the ten
    transfers of the sample to succeed. *)
Lemma sample_needs_every_transfer (n k : nat) :
  (k < 10)%nat -> spi_ret (bus (n + k)%nat) <> 0 ->
  reg_read_ok bus n && negb (Z.land (reg_read_byte bus n) 0x80 =? 0)
  && reg_read_ok bus (2 + n) && reg_read_ok bus (4 + n)
  && reg_read_ok bus (6 + n) && reg_read_ok bus (8 + n) = false.
Proof.
  intros Hk Hfail.
  destruct (_ && _) eqn:Hall; [ exfalso | reflexivity ].
  unfold reg_read_ok in Hall. cbn [Nat.add] in Hall.
  repeat match goal with
         | H : _ && _ = true |- _ =>
             apply andb_true_iff in H; destruct H
         end.
  repeat match goal with
         | H : (_ =? 0) = true |- _ => apply Z.eqb_eq in H
         end.
  apply Hfail.
  do 10 (destruct k as [ | k];
         [ repeat (rewrite Nat.add_succ_r); rewrite Nat.add_0_r;
           assumption | ]).
  lia.
Qed.

(** X5. When any of the ten transfers of a sample fails, the tick reports
    nothing, re-arms the poller as usual and leaves the bus released: the
    failure is absorbed. *)
Theorem tick_absorbs_transfer_failure (cfg : pmw3360_config) (n k : nat) :
  (k < 10)%nat -> spi_ret (bus (n + k)%nat) <> 0 ->
  input_events (trace (pmw3360_work_handler bus cfg n)) = [] /\
  schedules (trace (pmw3360_work_handler bus cfg n)) =
    [WorkSchedule (polling_interval_ms cfg)] /\
  fst (fst (value (pmw3360_read_motion bus 0 0 n))) = false.
Proof.
  intros Hk Hfail.
  pose proof (sample_needs_every_transfer n k Hk Hfail) as Hcond.
  destruct (read_motion_run bus 0 0 n) as [Hval _].
  rewrite Hcond in Hval.
  rewrite work_handler_run, Hval. cbn [fst snd andb app].
  split; [ | split; [ | reflexivity ] ].
  - unfold input_events. rewrite filter_app.
    fold (input_events (trace (pmw3360_read_motion bus 0 0 n))).
    rewrite PollerFacts.no_report_no_input_event
      by (intros c v s; apply read_motion_no_report).
    reflexivity.
  - rewrite PollerFacts.schedules_app, read_motion_no_schedule.
    reflexivity.
Qed.

(** X6. The status of bring-up: [-ENODEV] without any bus traffic when the
    bus is not ready; [-EIO] when the reset write fails, before the settle
    sleep, or when an identity read fails; [-ENODEV] when the identity
    bytes are not [(0x42, 0x01)]; there is no other error, and an error
    leaves the instance data as it was. *)
Theorem init_status_codes (d : nat) (cfg : pmw3360_config)
    (data : pmw3360_data) (n : nat) :
  let r := pmw3360_init bus d cfg data n in
  (spi_ready cfg = false ->
   value r = (- ENODEV, data) /\ trace r = [] /\ transfers r = n) /\
  (spi_ready cfg = true -> spi_ret (bus n) <> 0 ->
   value r = (- EIO, data) /\ ~ In (MSleep 50) (trace r)) /\
  (spi_ready cfg = true -> spi_ret (bus n) = 0 ->
   reg_read_ok bus (1 + n) && reg_read_ok bus (3 + n) = false ->
   value r = (- EIO, data)) /\
  (spi_ready cfg = true -> spi_ret (bus n) = 0 ->
   reg_read_ok bus (1 + n) && reg_read_ok bus (3 + n) = true ->
   (reg_read_byte bus (1 + n) =? 0x42)
   && (reg_read_byte bus (3 + n) =? 0x01) = false ->
   value r = (- ENODEV, data)) /\
  (fst (value r) = 0 \/ fst (value r) = - EIO \/ fst (value r) = - ENODEV) /\
  (fst (value r) <> 0 -> snd (value r) = data).
Proof.
  cbv zeta.
  destruct (init_cases bus d cfg data n)
    as [Hv [_ [_ [_ [Hnot Hsleep]]]]].
  split; [ | split; [ | split; [ | split; [ | split ] ] ] ].
  - intros Hr. rewrite Hv, Hr. cbn [negb]. split; [ reflexivity | ].
    apply Hnot. exact Hr.
  - intros Hr Hw. apply Z.eqb_neq in Hw. rewrite Hv, Hr, Hw. cbn [negb].
    split; [ reflexivity | ]. exact (Hsleep Hw 50).
  - intros Hr Hw Hid. rewrite Hv, Hr, Hw, Hid. reflexivity.
  - intros Hr Hw Hid Hbytes. rewrite Hv, Hr, Hw, Hid, Hbytes. reflexivity.
  - rewrite Hv.
    destruct (negb (spi_ready cfg)); [ right; right; reflexivity | ].
    destruct (negb (spi_ret (bus n) =? 0)); [ right; left; reflexivity | ].
    destruct (negb (_ && _)); [ right; left; reflexivity | ].
    destruct (negb (_ && _)); [ right; right; reflexivity | ].
    left; reflexivity.
  - rewrite Hv.
    destruct (negb (spi_ready cfg)); [ reflexivity | ].
    destruct (negb (spi_ret (bus n) =? 0)); [ reflexivity | ].
    destruct (negb (_ && _)); [ reflexivity | ].
    destruct (negb (_ && _)); [ reflexivity | ].
    cbn [fst]. intros H. now contradiction H.
Qed.

Lemma set_cpi_written (cfg : pmw3360_config) (n : nat) :
  written_value (trace (pmw3360_set_cpi bus cfg n)) =
    Some (Z.max 100 (Z.min 12000 (cpi cfg)) / 100 - 1) /\
  value (pmw3360_set_cpi bus cfg n) = spi_ret (bus n).
Proof.
  unfold pmw3360_set_cpi. rewrite reg_write_run.
  split; [ | reflexivity ].
  unfold reg_write_calls, trace. cbn [snd written_value]. f_equal.
  set (c := if cpi cfg <? 100 then 100
            else if cpi cfg >? 12000 then 12000 else cpi cfg).
  assert (Hc : c = Z.max 100 (Z.min 12000 (cpi cfg))).
  { subst c. rewrite Z.gtb_ltb.
    destruct (cpi cfg <? 100) eqn:Hlo;
      [ apply Z.ltb_lt in Hlo; lia | apply Z.ltb_ge in Hlo ].
    destruct (12000 <? cpi cfg) eqn:Hhi;
      [ apply Z.ltb_lt in Hhi | apply Z.ltb_ge in Hhi ]; lia. }
  rewrite Hc.
  rewrite Z.quot_div_nonneg by lia.
  apply Z.mod_small.
  assert (1 <= Z.max 100 (Z.min 12000 (cpi cfg)) / 100)
    by (apply Z.div_le_lower_bound; lia).
  assert (Z.max 100 (Z.min 12000 (cpi cfg)) / 100 <= 120)
    by (apply Z.div_le_upper_bound; lia).
  lia.
Qed.

(** X7. The resolution the sensor is set to, 100 times the register value
    plus one, is the clamped request rounded down to a multiple of 100: it
    never exceeds the clamped request and falls short of it by less than
    100.  A larger request never gives a smaller register value, and the
    status of the write is returned to the caller. *)
Theorem set_cpi_resolution (cfg1 cfg2 : pmw3360_config) (n m : nat) :
  exists e1 e2,
    written_value (trace (pmw3360_set_cpi bus cfg1 n)) = Some e1 /\
    written_value (trace (pmw3360_set_cpi bus cfg2 m)) = Some e2 /\
    100 * (e1 + 1) <= Z.max 100 (Z.min 12000 (cpi cfg1))
      < 100 * (e1 + 1) + 100 /\
    0 <= e1 <= 119 /\
    (cpi cfg1 <= cpi cfg2 -> e1 <= e2) /\
    value (pmw3360_set_cpi bus cfg1 n) = spi_ret (bus n).
Proof.
  destruct (set_cpi_written cfg1 n) as [H1 Hv].
  destruct (set_cpi_written cfg2 m) as [H2 _].
  eexists. eexists.
  split; [ exact H1 | ]. split; [ exact H2 | ].
  set (c1 := Z.max 100 (Z.min 12000 (cpi cfg1))).
  set (c2 := Z.max 100 (Z.min 12000 (cpi cfg2))).
  assert (Hc1 : 100 <= c1 <= 12000) by (subst c1; lia).
  split; [ | split; [ | split; [ | exact Hv ] ] ].
  - pose proof (Z.div_mod c1 100 ltac:(lia)).
    pose proof (Z.mod_pos_bound c1 100 ltac:(lia)). lia.
  - assert (1 <= c1 / 100) by (apply Z.div_le_lower_bound; lia).
    assert (c1 / 100 <= 120) by (apply Z.div_le_upper_bound; lia).
    lia.
  - intros Hle.
    assert (c1 <= c2) by (subst c1 c2; lia).
    assert (c1 / 100 <= c2 / 100) by (apply Z.div_le_mono; lia).
    lia.
Qed.

End Frames.

(** A sensor whose product byte is [0x43] fails bring-up with
    [-ENODEV]. *)
Lemma init_status_codes_witness :
  let b := bus_of [(0, 0); (0, 0); (0, 0x43); (0, 0); (0, 0x01)] in
  let cfg := {| spi_ready := true; polling_interval_ms := 4; cpi := 500 |} in
  spi_ready cfg = true /\ spi_ret (b 0%nat) = 0 /\
  value (pmw3360_init b 0 cfg {| dev := None |} 0%nat) =
    (- ENODEV, {| dev := None |}).
Proof.
  cbv zeta.
  split; [ reflexivity | split; [ reflexivity | ] ].
  refine (proj1 (proj2 (proj2 (proj2
            (init_status_codes
               (bus_of [(0, 0); (0, 0); (0, 0x43); (0, 0); (0, 0x01)])
               0 {| spi_ready := true; polling_interval_ms := 4;
                    cpi := 500 |}
               {| dev := None |} 0%nat)))) _ _ _ _);
    reflexivity.
Defined.

(** A tick whose fourth transfer fails reports nothing. *)
Lemma tick_absorbs_transfer_failure_witness :
  let b := bus_of [(0, 0); (0, 0x80); (0, 0); (- EIO, 0)] in
  (3 < 10)%nat /\ spi_ret (b 3%nat) <> 0 /\
  input_events (trace (pmw3360_work_handler b zero_interval_config 0%nat))
    = [].
Proof.
  cbv zeta.
  split; [ lia | ].
  split; [ vm_compute; discriminate | ].
  refine (proj1 (tick_absorbs_transfer_failure
                   (bus_of [(0, 0); (0, 0x80); (0, 0); (- EIO, 0)])
                   zero_interval_config 0%nat 3%nat _ _)).
  - lia.
  - vm_compute. discriminate.
Defined.

(** A request of 850 is written as 7, a request of 1230 as 11. *)
Lemma set_cpi_resolution_witness :
  exists e1 e2,
    written_value
      (trace (pmw3360_set_cpi motion_example_bus
                {| spi_ready := true; polling_interval_ms := 4; cpi := 850 |}
                0%nat)) = Some e1 /\
    written_value
      (trace (pmw3360_set_cpi motion_example_bus
                {| spi_ready := true; polling_interval_ms := 4; cpi := 1230 |}
                0%nat)) = Some e2 /\
    e1 <= e2.
Proof.
  destruct (set_cpi_resolution motion_example_bus
              {| spi_ready := true; polling_interval_ms := 4; cpi := 850 |}
              {| spi_ready := true; polling_interval_ms := 4; cpi := 1230 |}
              0%nat 0%nat)
    as [e1 [e2 [H1 [H2 [_ [_ [Hmono _]]]]]]].
  exists e1, e2.
  split; [ exact H1 | split; [ exact H2 | ] ].
  apply Hmono. cbn. lia.
Defined.

End SensorExtra.

(** * Further properties of the joystick driver *)

Module JoystickExtra.
Import CInt Zephyr Joystick Script Design Discipline JoystickFacts.

Lemma deadzone_policy_range (v d : Z) :
  0 <= d -> Z.abs (deadzone_policy v d) <= Z.abs v.
Proof.
  intros Hd. unfold deadzone_policy.
  destruct (0 <? v) eqn:Hpos;
    [ apply Z.ltb_lt in Hpos | apply Z.ltb_ge in Hpos ].
  - destruct (v <=? d) eqn:Hle;
      [ apply Z.leb_le in Hle | apply Z.leb_gt in Hle ]; lia.
  - destruct (v <? 0) eqn:Hneg;
      [ apply Z.ltb_lt in Hneg | lia ].
    destruct (- v <=? d) eqn:Hle;
      [ apply Z.leb_le in Hle | apply Z.leb_gt in Hle ]; lia.
Qed.

Lemma deadzone_policy_monotone (v w d : Z) :
  0 <= d -> v <= w -> deadzone_policy v d <= deadzone_policy w d.
Proof.
  intros Hd Hvw. unfold deadzone_policy.
  destruct (0 <? v) eqn:Hv; destruct (0 <? w) eqn:Hw;
    destruct (v <? 0) eqn:Hv'; destruct (w <? 0) eqn:Hw';
    destruct (v <=? d) eqn:Hvd; destruct (w <=? d) eqn:Hwd;
    destruct (- v <=? d) eqn:Hvn; destruct (- w <=? d) eqn:Hwn;
    repeat match goal with
           | H : (_ <? _) = true |- _ => apply Z.ltb_lt in H
           | H : (_ <? _) = false |- _ => apply Z.ltb_ge in H
           | H : (_ <=? _) = true |- _ => apply Z.leb_le in H
           | H : (_ <=? _) = false |- _ => apply Z.leb_gt in H
           end;
    lia.
Qed.

Lemma deadzone_policy_odd (v d : Z) :
  deadzone_policy (- v) d = - deadzone_policy v d.
Proof.
  unfold deadzone_policy. rewrite Z.opp_involutive.
  destruct (0 <? v) eqn:Hv; destruct (0 <? - v) eqn:Hnv;
    destruct (v <? 0) eqn:Hv'; destruct (- v <? 0) eqn:Hnv';
    destruct (v <=? d) eqn:Hvd; destruct (- v <=? d) eqn:Hvn;
    repeat match goal with
           | H : (_ <? _) = true |- _ => apply Z.ltb_lt in H
           | H : (_ <? _) = false |- _ => apply Z.ltb_ge in H
           | H : (_ <=? _) = true |- _ => apply Z.leb_le in H
           | H : (_ <=? _) = false |- _ => apply Z.leb_gt in H
           end;
    lia.
Qed.

(** X8. [apply_deadzone] is non-decreasing and odd, it is the identity
    for a threshold of 0, and it returns 0 exactly for the values within
    the threshold of zero. *)
Theorem apply_deadzone_monotone_odd (v w d : Z) :
  INT32_MIN < v <= INT32_MAX -> INT32_MIN < w <= INT32_MAX ->
  is_uint16 d ->
  (v <= w -> apply_deadzone v d <= apply_deadzone w d) /\
  apply_deadzone (- v) d = - apply_deadzone v d /\
  (apply_deadzone v d = 0 <-> Z.abs v <= d) /\
  apply_deadzone v 0 = v.
Proof.
  intros Hv Hw Hd.
  assert (Hd' : 0 <= d <= 65535) by exact Hd.
  assert (Hv' : -2147483648 < v <= 2147483647) by exact Hv.
  assert (Hnv : INT32_MIN < - v <= INT32_MAX)
    by (unfold INT32_MIN, INT32_MAX; lia).
  assert (H0 : is_uint16 0) by (unfold is_uint16; lia).
  rewrite (apply_deadzone_policy v d Hv Hd),
    (apply_deadzone_policy w d Hw Hd),
    (apply_deadzone_policy (- v) d Hnv Hd),
    (apply_deadzone_policy v 0 Hv H0).
  split; [ | split; [ | split ] ].
  - apply deadzone_policy_monotone. lia.
  - apply deadzone_policy_odd.
  - unfold deadzone_policy.
    destruct (0 <? v) eqn:Hpos;
      [ apply Z.ltb_lt in Hpos | apply Z.ltb_ge in Hpos ].
    + destruct (v <=? d) eqn:Hle;
        [ apply Z.leb_le in Hle | apply Z.leb_gt in Hle ]; lia.
    + destruct (v <? 0) eqn:Hneg;
        [ apply Z.ltb_lt in Hneg | apply Z.ltb_ge in Hneg; lia ].
      destruct (- v <=? d) eqn:Hle;
        [ apply Z.leb_le in Hle | apply Z.leb_gt in Hle ]; lia.
  - unfold deadzone_policy.
    destruct (0 <? v) eqn:Hpos;
      [ apply Z.ltb_lt in Hpos | apply Z.ltb_ge in Hpos ].
    + destruct (v <=? 0) eqn:Hle;
        [ apply Z.leb_le in Hle | apply Z.leb_gt in Hle ]; lia.
    + destruct (v <? 0) eqn:Hneg;
        [ apply Z.ltb_lt in Hneg | apply Z.ltb_ge in Hneg; lia ].
      destruct (- v <=? 0) eqn:Hle;
        [ apply Z.leb_le in Hle | apply Z.leb_gt in Hle ]; lia.
Qed.

Lemma effective_divisor_pos (d : Z) :
  is_uint16 d -> 0 < effective_divisor d <= 65535.
Proof.
  unfold is_uint16, effective_divisor. intros Hd.
  destruct (d =? 0) eqn:Hz; [ lia | apply Z.eqb_neq in Hz; lia ].
Qed.

Lemma scale_value_quot (v d : Z) :
  is_int32 v -> is_uint16 d ->
  scale_value v d = Z.quot v (effective_divisor d).
Proof.
  intros Hv Hd.
  pose proof (effective_divisor_pos d Hd) as He.
  pose proof (quot_abs_le v _ (proj1 He)) as Hq.
  unfold scale_value, div32.
  change (if d =? 0 then 1 else d) with (effective_divisor d).
  apply to_int32_small.
  unfold is_int32, INT32_MIN, INT32_MAX in *.
  destruct (Z.le_gt_cases 0 v) as [Hpos | Hneg].
  - pose proof (Z.quot_pos v _ Hpos (proj1 He)). lia.
  - pose proof (Z.quot_opp_l v (effective_divisor d) ltac:(lia)) as Hopp.
    pose proof (Z.quot_pos (- v) _ ltac:(lia) (proj1 He)). lia.
Qed.

(** X9. [scale_value] with a divisor of 0 divides by 1, that is, returns
    its argument.  With any divisor it truncates toward zero: the result
    has the sign of the argument or is zero, its size is the whole number
    of divisors in the size of the argument, and negating the argument
    negates the result. *)
Theorem scale_value_truncates (v d : Z) :
  is_int32 v -> is_uint16 d ->
  scale_value v 0 = v /\
  scale_value v 0 = scale_value v 1 /\
  Z.abs (scale_value v d) * effective_divisor d <= Z.abs v
    < (Z.abs (scale_value v d) + 1) * effective_divisor d /\
  (scale_value v d = 0 \/ Z.sgn (scale_value v d) = Z.sgn v) /\
  (INT32_MIN < v -> scale_value (- v) d = - scale_value v d).
Proof.
  intros Hv Hd.
  assert (H0 : is_uint16 0) by (unfold is_uint16; lia).
  assert (H1 : is_uint16 1) by (unfold is_uint16; lia).
  pose proof (effective_divisor_pos d Hd) as He.
  rewrite (scale_value_quot v 0 Hv H0), (scale_value_quot v 1 Hv H1),
    (scale_value_quot v d Hv Hd).
  change (effective_divisor 0) with 1. change (effective_divisor 1) with 1.
  rewrite Z.quot_1_r.
  set (e := effective_divisor d) in *.
  assert (Habs : Z.abs (Z.quot v e) = Z.abs v / e).
  { rewrite <- (Z.abs_eq e) at 2 by lia.
    rewrite <- Z.quot_div_nonneg by lia.
    symmetry. apply Z.quot_abs. lia. }
  split; [ reflexivity | split; [ reflexivity | ] ].
  split; [ | split ].
  - rewrite Habs.
    pose proof (Z.div_mod (Z.abs v) e ltac:(lia)).
    pose proof (Z.mod_pos_bound (Z.abs v) e ltac:(lia)). lia.
  - destruct (Z.quot v e =? 0) eqn:Hz;
      [ apply Z.eqb_eq in Hz; now left | apply Z.eqb_neq in Hz; right ].
    assert (Hnz : v <> 0)
      by (intros Hv0; apply Hz; rewrite Hv0; apply Z.quot_0_l; lia).
    destruct (Z.le_gt_cases 0 v) as [Hpos | Hneg].
    + pose proof (Z.quot_pos v e Hpos ltac:(lia)).
      rewrite !Z.sgn_pos; lia.
    + pose proof (Z.quot_opp_l v e ltac:(lia)) as Hopp.
      pose proof (Z.quot_pos (- v) e ltac:(lia) ltac:(lia)).
      rewrite !Z.sgn_neg; lia.
  - intros Hmin.
    rewrite scale_value_quot
      by (auto; unfold is_int32, INT32_MIN, INT32_MAX in *; lia).
    fold e. apply Z.quot_opp_l. lia.
Qed.

Section Tick.
Variable adc : nat -> adc_result.

(** The complete run of a tick, whatever the two conversions do. *)
Lemma work_cb_full_run (cfg : joystick_config) (data : joystick_data)
    (n : nat) :
  joystick_work_cb adc cfg data n =
  (tt,
   (if adc_ok (adc n) then S (S n) else S n),
   conversion_calls X_ADC (adc n)
   ++ (if adc_ok (adc n) then
         conversion_calls Y_ADC (adc (S n))
         ++ (if adc_ok (adc (S n)) then
               emit_events
                 (clamp16 (tick_delta cfg (center_x data) (invert_x cfg)
                             (sample (adc n))))
                 (clamp16 (tick_delta cfg (center_y data) (invert_y cfg)
                             (sample (adc (S n)))))
             else [])
       else [])
   ++ [WorkSchedule (poll_interval_or_default (poll_interval_ms cfg))]).
Proof.
  unfold joystick_work_cb, adc_ok, conversion_calls.
  cbv beta iota delta [bind].
  rewrite (PollerFacts.joystick_read_axis_run adc X_ADC 0 n).
  destruct (seq_init_ret (adc n) <? 0) eqn:Hxi;
    [ cbv beta iota delta [fst snd call]; rewrite Hxi; reflexivity | ].
  destruct (read_ret (adc n) <? 0) eqn:Hxr;
    [ cbv beta iota delta [fst snd call]; rewrite Hxr; reflexivity | ].
  cbv beta iota delta [fst snd negb andb]. change (0 <? 0) with false.
  cbv beta iota.
  rewrite (PollerFacts.joystick_read_axis_run adc Y_ADC 0 (S n)).
  destruct (seq_init_ret (adc (S n)) <? 0) eqn:Hyi;
    [ cbv beta iota delta [fst snd call]; rewrite Hyi; reflexivity | ].
  destruct (read_ret (adc (S n)) <? 0) eqn:Hyr;
    [ cbv beta iota delta [fst snd call]; rewrite Hyr; reflexivity | ].
  cbv beta iota delta [fst snd negb andb]. change (0 <? 0) with false.
  cbv beta iota.
  rewrite joystick_report_run. cbv beta iota delta [call].
  unfold tick_delta. rewrite <- !app_assoc. reflexivity.
Qed.


(** X10. [joystick_read_axis] makes exactly one conversion and never
    returns a positive status: it returns 0, with the sample stored, when
    neither [adc_sequence_init_dt] nor [adc_read] reports a negative
    status, and otherwise the first negative status, with the caller's
    variable untouched and, when the initialisation failed, without
    reading. *)
Theorem read_axis_result (ch : adc_channel) (out : Z) (n : nat) :
  let r := joystick_read_axis adc ch out n in
  transfers r = S n /\
  fst (value r) <= 0 /\
  trace r = conversion_calls ch (adc n) /\
  (if adc_ok (adc n) then value r = (0, sample (adc n))
   else value r = (adc_err (adc n), out) /\ adc_err (adc n) < 0).
Proof.
  cbv zeta. rewrite PollerFacts.joystick_read_axis_run.
  unfold adc_ok, adc_err, conversion_calls.
  destruct (seq_init_ret (adc n) <? 0) eqn:Hi.
  - apply Z.ltb_lt in Hi. cbn. repeat split; lia.
  - destruct (read_ret (adc n) <? 0) eqn:Hr.
    + apply Z.ltb_lt in Hr. cbn. repeat split; lia.
    + cbn. repeat split; lia.
Qed.

(** X11. A tick absorbs a failed conversion: when the X conversion fails
    the Y channel is not touched, and when either conversion fails nothing
    is reported; the poller is re-armed after the same delay as on
    success. *)
Theorem work_cb_absorbs_failure (cfg : joystick_config)
    (data : joystick_data) (n : nat) :
  adc_ok (adc n) && adc_ok (adc (S n)) = false ->
  input_events (trace (joystick_work_cb adc cfg data n)) = [] /\
  schedules (trace (joystick_work_cb adc cfg data n)) =
    [WorkSchedule (poll_interval_or_default (poll_interval_ms cfg))] /\
  (adc_ok (adc n) = false ->
   filter (is_conversion Y_ADC) (trace (joystick_work_cb adc cfg data n))
     = [] /\
   transfers (joystick_work_cb adc cfg data n) = S n).
Proof.
  intros Hfail. rewrite work_cb_full_run.
  unfold trace, transfers. cbn [fst snd].
  destruct (adc_ok (adc n)) eqn:Hx.
  - cbn [andb] in Hfail. rewrite Hfail.
    unfold conversion_calls.
    destruct (seq_init_ret (adc n) <? 0),
             (seq_init_ret (adc (S n)) <? 0);
      repeat split; discriminate.
  - unfold conversion_calls.
    destruct (seq_init_ret (adc n) <? 0); repeat split.
Qed.

Lemma deadzone_policy_abs (v d : Z) :
  0 <= d -> Z.abs (deadzone_policy v d) = Z.max 0 (Z.abs v - d).
Proof.
  intros Hd. unfold deadzone_policy.
  destruct (0 <? v) eqn:Hpos;
    [ apply Z.ltb_lt in Hpos | apply Z.ltb_ge in Hpos ].
  - destruct (v <=? d) eqn:Hle;
      [ apply Z.leb_le in Hle | apply Z.leb_gt in Hle ]; lia.
  - destruct (v <? 0) eqn:Hneg;
      [ apply Z.ltb_lt in Hneg | apply Z.ltb_ge in Hneg; lia ].
    destruct (- v <=? d) eqn:Hle;
      [ apply Z.leb_le in Hle | apply Z.leb_gt in Hle ]; lia.
Qed.

(** An axis moves the pointer exactly when its excursion from the centre
    reaches the deadzone plus one scale divisor. *)
Lemma tick_delta_nonzero (cfg : joystick_config) (center : Z)
    (invert : bool) (raw : Z) :
  is_int16 raw -> is_int16 center ->
  is_uint16 (deadzone cfg) -> is_uint16 (scale_divisor cfg) ->
  (tick_delta cfg center invert raw <> 0 <->
   deadzone cfg + effective_divisor (scale_divisor cfg)
     <= Z.abs (raw - center)).
Proof.
  intros Hraw Hc Hdz Hdiv.
  pose proof (tick_delta_condition cfg center invert raw Hraw Hc Hdz Hdiv)
    as Hcond.
  pose proof (effective_divisor_pos _ Hdiv) as He.
  assert (Hdz' : 0 <= deadzone cfg <= 65535) by exact Hdz.
  set (e := effective_divisor (scale_divisor cfg)) in *.
  set (dead := deadzone_policy (raw - center) (deadzone cfg)).
  assert (Hzero : tick_delta cfg center invert raw = 0 <->
                  Z.quot dead e = 0).
  { rewrite <- (Z.eqb_eq (tick_delta _ _ _ _) 0).
    rewrite <- clamp16_zero, Hcond.
    unfold condition_axis. fold e. fold dead.
    rewrite clamp16_zero, Z.eqb_eq.
    destruct invert; lia. }
  rewrite Hzero.
  rewrite Z.quot_small_iff by lia.
  subst dead. rewrite deadzone_policy_abs by lia. lia.
Qed.

(** X12. On a tick whose conversions succeed, an axis is reported exactly
    when the raw sample is at least the deadzone plus one scale divisor
    (1 for a configured 0) away from the centre. *)
Theorem work_cb_motion_threshold (cfg : joystick_config)
    (data : joystick_data) (n : nat) :
  adc_ok (adc n) = true -> adc_ok (adc (S n)) = true ->
  is_int16 (sample (adc n)) -> is_int16 (sample (adc (S n))) ->
  is_int16 (center_x data) -> is_int16 (center_y data) ->
  is_uint16 (deadzone cfg) -> is_uint16 (scale_divisor cfg) ->
  (reports INPUT_REL_X (trace (joystick_work_cb adc cfg data n)) <> [] <->
   deadzone cfg + effective_divisor (scale_divisor cfg)
     <= Z.abs (sample (adc n) - center_x data)) /\
  (reports INPUT_REL_Y (trace (joystick_work_cb adc cfg data n)) <> [] <->
   deadzone cfg + effective_divisor (scale_divisor cfg)
     <= Z.abs (sample (adc (S n)) - center_y data)).
Proof.
  intros Hx Hy Hsx Hsy Hcx Hcy Hdz Hdiv.
  destruct (PollerFacts.work_cb_reports adc cfg data n Hx Hy)
    as [Hrx [Hry _]].
  split.
  - rewrite Hrx. apply tick_delta_nonzero; assumption.
  - rewrite Hry. apply tick_delta_nonzero; assumption.
Qed.

(** X13. The joystick never re-arms its poller with a delay of zero: the
    delay of every tick is positive, it is the configured interval when
    that is not zero, and applying the default twice changes nothing. *)
Theorem work_cb_delay_positive (cfg : joystick_config)
    (data : joystick_data) (n : nat) :
  is_uint16 (poll_interval_ms cfg) ->
  exists t delay,
    trace (joystick_work_cb adc cfg data n) = t ++ [WorkSchedule delay] /\
    schedules t = [] /\
    0 < delay <= 65535 /\
    (poll_interval_ms cfg <> 0 -> delay = poll_interval_ms cfg) /\
    poll_interval_or_default delay = delay.
Proof.
  unfold is_uint16. intros Hi.
  destruct (PollerFacts.work_cb_reschedules adc cfg data n) as [t [Ht Hs]].
  exists t, (poll_interval_or_default (poll_interval_ms cfg)).
  split; [ exact Ht | split; [ exact Hs | ] ].
  unfold poll_interval_or_default. rewrite !Z.gtb_ltb.
  destruct (0 <? poll_interval_ms cfg) eqn:Hpos.
  - rewrite ?Hpos. apply Z.ltb_lt in Hpos. repeat split; lia.
  - apply Z.ltb_ge in Hpos. change (0 <? 10) with true. repeat split; lia.
Qed.

End Tick.

Section Calibration.
Variable adc : nat -> adc_result.

Lemma sum_samples_between (lo hi : Z) (k : nat) :
  forall n,
  (forall i, (i < k)%nat -> lo <= sample (adc (n + 2 * i)%nat) <= hi) ->
  Z.of_nat k * lo <= sum_samples adc n k <= Z.of_nat k * hi.
Proof.
  induction k as [ | k IH]; intros n Hb; cbn [sum_samples]; [ lia | ].
  pose proof (Hb 0%nat ltac:(lia)) as H0.
  rewrite Nat.mul_0_r, Nat.add_0_r in H0.
  assert (Hrest : forall i, (i < k)%nat ->
                  lo <= sample (adc (S (S n) + 2 * i)%nat) <= hi).
  { intros i Hi.
    replace (S (S n) + 2 * i)%nat with (n + 2 * S i)%nat by lia.
    apply Hb. lia. }
  specialize (IH (S (S n)) Hrest). lia.
Qed.

(** Calibration when the sixteen conversions succeed. *)
Lemma calibrate_success (data : joystick_data) (n : nat) :
  adc_samples adc ->
  (forall k, (k < 16)%nat -> adc_ok (adc (n + k)%nat) = true) ->
  joystick_calibrate adc data n =
  ((0, {| dev := dev data;
          center_x := Z.quot (sum_samples adc n 8) 8;
          center_y := Z.quot (sum_samples adc (S n) 8) 8 |}),
   (n + 16)%nat, paired_sample_calls 8).
Proof.
  intros Hs Hok. unfold joystick_calibrate, bind.
  rewrite (calibrate_loop_ok adc 8 0 0 n Hs Hok)
    by (vm_compute; reflexivity).
  cbv beta iota delta [ret fst snd].
  rewrite !Z.add_0_l, app_nil_r.
  pose proof (sum_samples_bound adc 8 n Hs) as Hbx.
  pose proof (sum_samples_bound adc 8 (S n) Hs) as Hby.
  change (Z.of_nat 8) with 8 in Hbx, Hby.
  assert (Hqx : -32768 <= Z.quot (sum_samples adc n 8) 8 <= 32767)
    by (Z.to_euclidean_division_equations; lia).
  assert (Hqy : -32768 <= Z.quot (sum_samples adc (S n) 8) 8 <= 32767)
    by (Z.to_euclidean_division_equations; lia).
  unfold div64.
  rewrite !to_int64_small
    by (change (2 ^ 63) with 9223372036854775808; lia).
  rewrite !to_int32_small
    by (unfold is_int32, INT32_MIN, INT32_MAX; lia).
  reflexivity.
Qed.

(** X14. The centre calibration stores for an axis lies between the
    smallest and the largest of the eight samples of that axis; a stick
    that reads the same value eight times is centred on that value. *)
Theorem calibrate_center_between (data : joystick_data) (n : nat)
    (lo_x hi_x lo_y hi_y : Z) :
  adc_samples adc ->
  (forall k, (k < 16)%nat -> adc_ok (adc (n + k)%nat) = true) ->
  (forall i, (i < 8)%nat ->
   lo_x <= sample (adc (n + 2 * i)%nat) <= hi_x) ->
  (forall i, (i < 8)%nat ->
   lo_y <= sample (adc (S n + 2 * i)%nat) <= hi_y) ->
  let data' := snd (value (joystick_calibrate adc data n)) in
  lo_x <= center_x data' <= hi_x /\
  lo_y <= center_y data' <= hi_y /\
  (lo_x = hi_x -> center_x data' = lo_x) /\
  (lo_y = hi_y -> center_y data' = lo_y).
Proof.
  intros Hs Hok Hx Hy. cbv zeta.
  rewrite (calibrate_success data n Hs Hok).
  unfold value. cbn [fst snd center_x center_y].
  pose proof (sum_samples_between lo_x hi_x 8 n Hx) as Hbx.
  pose proof (sum_samples_between lo_y hi_y 8 (S n) Hy) as Hby.
  change (Z.of_nat 8) with 8 in Hbx, Hby.
  assert (Hqx : lo_x <= Z.quot (sum_samples adc n 8) 8 <= hi_x)
    by (Z.to_euclidean_division_equations; lia).
  assert (Hqy : lo_y <= Z.quot (sum_samples adc (S n) 8) 8 <= hi_y)
    by (Z.to_euclidean_division_equations; lia).
  repeat split; lia.
Qed.

Lemma calibrate_loop_sampling (i : nat) :
  forall (sum_x sum_y : Z) (n : nat),
  forallb is_sampling_call (trace (calibrate_loop adc i sum_x sum_y n))
    = true.
Proof.
  induction i as [ | i IH]; intros sum_x sum_y n; [ reflexivity | ].
  cbn [calibrate_loop]. unfold bind at 1, trace.
  rewrite (PollerFacts.joystick_read_axis_run adc X_ADC 0 n).
  destruct (seq_init_ret (adc n) <? 0) eqn:Hxi;
    [ cbv beta iota delta [fst snd ret]; rewrite Hxi; reflexivity | ].
  destruct (read_ret (adc n) <? 0) eqn:Hxr;
    [ cbv beta iota delta [fst snd ret]; rewrite Hxr; reflexivity | ].
  cbv beta iota delta [fst snd]. change (0 <? 0) with false.
  cbv beta iota. unfold bind at 1.
  rewrite (PollerFacts.joystick_read_axis_run adc Y_ADC 0 (S n)).
  destruct (seq_init_ret (adc (S n)) <? 0) eqn:Hyi;
    [ cbv beta iota delta [fst snd ret]; rewrite Hyi; reflexivity | ].
  destruct (read_ret (adc (S n)) <? 0) eqn:Hyr;
    [ cbv beta iota delta [fst snd ret]; rewrite Hyr; reflexivity | ].
  cbv beta iota delta [fst snd]. change (0 <? 0) with false.
  cbv beta iota. unfold bind at 1, call at 1.
  specialize (IH (add64 sum_x (sample (adc n)))
                 (add64 sum_y (sample (adc (S n)))) (S (S n))).
  unfold trace in IH.
  destruct (calibrate_loop adc i _ _ (S (S n))) as [[v n2] t2].
  cbn [fst snd] in *. rewrite !forallb_app, IH. reflexivity.
Qed.

Lemma calibrate_sampling (data : joystick_data) (n : nat) :
  forallb is_sampling_call (trace (joystick_calibrate adc data n)) = true.
Proof.
  pose proof (calibrate_loop_sampling 8 0 0 n) as Hloop.
  unfold joystick_calibrate, bind, trace in *.
  destruct (calibrate_loop adc 8 0 0 n) as [[[e | [sx sy]] n1] t1];
    cbn [fst snd ret] in *; rewrite forallb_app, Hloop; reflexivity.
Qed.

(** Either the first [b] conversions from [n] on succeed, or there is a
    first one that fails. *)
Lemma all_or_first_failure (n b : nat) :
  (forall k, (k < b)%nat -> adc_ok (adc (n + k)%nat) = true) \/
  (exists k, (k < b)%nat /\ adc_ok (adc (n + k)%nat) = false /\
             forall j, (j < k)%nat -> adc_ok (adc (n + j)%nat) = true).
Proof.
  induction b as [ | b [Hall | [k [Hk [Hf Hbefore]]]]].
  - left. intros k Hk. lia.
  - destruct (adc_ok (adc (n + b)%nat)) eqn:Hb.
    + left. intros k Hk.
      destruct (Nat.eq_dec k b) as [-> | Hne]; [ exact Hb | ].
      apply Hall. lia.
    + right. exists b. split; [ lia | split; [ exact Hb | ] ].
      intros j Hj. apply Hall. exact Hj.
  - right. exists k. split; [ lia | split; assumption ].
Qed.

(** Calibration when a conversion fails. *)
Lemma calibrate_failure (data : joystick_data) (n k : nat) :
  (k < 16)%nat -> adc_ok (adc (n + k)%nat) = false ->
  (forall j, (j < k)%nat -> adc_ok (adc (n + j)%nat) = true) ->
  value (joystick_calibrate adc data n) = (adc_err (adc (n + k)%nat), data) /\
  (adc_err (adc (n + k)%nat) <? 0) = true.
Proof.
  intros Hk Hfail Hbefore.
  pose proof (calibrate_loop_first_error adc 8 0 0 n k Hk Hfail Hbefore)
    as Hloop.
  unfold joystick_calibrate, bind, value in *.
  destruct (calibrate_loop adc 8 0 0 n) as [[v n1] t1].
  cbn [fst snd] in Hloop. subst v. cbn [ret fst snd].
  split; [ reflexivity | ].
  unfold adc_ok, adc_err in *.
  destruct (seq_init_ret (adc (n + k)%nat) <? 0) eqn:Hi; [ exact Hi | ].
  cbn in Hfail. now apply negb_false_iff in Hfail.
Qed.

End Calibration.

Lemma sampling_calls_inert (t : list action) :
  forallb is_sampling_call t = true ->
  schedules t = [] /\ ~ In WorkInitDelayable t /\ input_events t = [].
Proof.
  induction t as [ | a t IH]; intros Hall.
  - repeat split. intros [].
  - cbn [forallb] in Hall. apply andb_true_iff in Hall.
    destruct Hall as [Ha Ht]. destruct (IH Ht) as [Hs [Hw He]].
    destruct a; try discriminate Ha; unfold schedules, input_events in *;
      cbn [filter is_schedule is_report orb];
      (split; [ exact Hs | split; [ | exact He ] ]);
      intros [Hin | Hin]; try discriminate Hin; exact (Hw Hin).
Qed.

(** A tick on a converter that fails at once reports nothing. *)
Lemma work_cb_absorbs_failure_witness :
  adc_ok (adc_of [] 0%nat) && adc_ok (adc_of [] 1%nat) = false /\
  input_events
    (trace (joystick_work_cb (adc_of []) example_joystick_config
              example_joystick_data 0%nat)) = [].
Proof.
  split; [ reflexivity | ].
  refine (proj1 (work_cb_absorbs_failure (adc_of [])
                   example_joystick_config example_joystick_data 0%nat _)).
  reflexivity.
Defined.

(** In the example the X sample is 100 away from the centre, the deadzone
    is 50 and the divisor 10: X is reported. *)
Lemma work_cb_motion_threshold_witness :
  deadzone example_joystick_config
    + effective_divisor (scale_divisor example_joystick_config)
    <= Z.abs (sample (adc_of [600; 500] 0%nat)
              - center_x example_joystick_data) /\
  reports INPUT_REL_X
    (trace (joystick_work_cb (adc_of [600; 500]) example_joystick_config
              example_joystick_data 0%nat)) <> [].
Proof.
  assert (Hthr : deadzone example_joystick_config
                 + effective_divisor (scale_divisor example_joystick_config)
                 <= Z.abs (sample (adc_of [600; 500] 0%nat)
                           - center_x example_joystick_data))
    by (cbn; lia).
  split; [ exact Hthr | ].
  refine (proj2 (proj1 (work_cb_motion_threshold (adc_of [600; 500])
                          example_joystick_config example_joystick_data
                          0%nat _ _ _ _ _ _ _ _)) Hthr);
    try reflexivity;
    unfold is_int16, is_uint16, INT16_MIN, INT16_MAX; cbn; lia.
Defined.

(** The example joystick is re-armed after its configured 10 ms. *)
Lemma work_cb_delay_positive_witness :
  is_uint16 (poll_interval_ms example_joystick_config) /\
  exists t delay,
    trace (joystick_work_cb (adc_of [600; 500]) example_joystick_config
             example_joystick_data 0%nat) = t ++ [WorkSchedule delay] /\
    0 < delay.
Proof.
  assert (Hi : is_uint16 (poll_interval_ms example_joystick_config))
    by (unfold is_uint16; cbn; lia).
  split; [ exact Hi | ].
  destruct (work_cb_delay_positive (adc_of [600; 500])
              example_joystick_config example_joystick_data 0%nat Hi)
    as [t [delay [Ht [_ [Hpos _]]]]].
  exists t, delay. split; [ exact Ht | apply Hpos ].
Defined.

(** On the calibration example the X samples lie between 7 and 14, and so
    does the centre. *)
Lemma calibrate_center_between_witness :
  adc_samples calibration_example_adc /\
  7 <= center_x
         (snd (value (joystick_calibrate calibration_example_adc
                        example_joystick_data 0%nat))) <= 14.
Proof.
  split; [ exact calibration_example_samples | ].
  refine (proj1 (calibrate_center_between calibration_example_adc
                   example_joystick_data 0%nat 7 14 500 500
                   calibration_example_samples _ _ _)).
  - intros k Hk. apply adc_of_ok. cbn. lia.
  - intros i Hi.
    do 8 (destruct i as [ | i]; [ cbn; lia | ]). lia.
  - intros i Hi.
    do 8 (destruct i as [ | i]; [ cbn; lia | ]). lia.
Defined.

(** The threshold 50 keeps the order of -200 and 120 and mirrors 120. *)
Lemma apply_deadzone_monotone_odd_witness :
  apply_deadzone (-200) 50 <= apply_deadzone 120 50 /\
  apply_deadzone (- -200) 50 = - apply_deadzone (-200) 50.
Proof.
  assert (Hv : INT32_MIN < -200 <= INT32_MAX)
    by (unfold INT32_MIN, INT32_MAX; lia).
  assert (Hw : INT32_MIN < 120 <= INT32_MAX)
    by (unfold INT32_MIN, INT32_MAX; lia).
  assert (Hd : is_uint16 50) by (unfold is_uint16; lia).
  destruct (apply_deadzone_monotone_odd (-200) 120 50 Hv Hw Hd)
    as [Hmono [Hodd _]].
  split; [ apply Hmono; lia | exact Hodd ].
Defined.

(** Dividing -1234 by 128 gives -9 and leaves a remainder. *)
Lemma scale_value_truncates_witness :
  is_int32 (-1234) /\ is_uint16 128 /\
  Z.abs (scale_value (-1234) 128) * effective_divisor 128 <= Z.abs (-1234)
    < (Z.abs (scale_value (-1234) 128) + 1) * effective_divisor 128.
Proof.
  assert (Hv : is_int32 (-1234))
    by (unfold is_int32, INT32_MIN, INT32_MAX; lia).
  assert (Hd : is_uint16 128) by (unfold is_uint16; lia).
  split; [ exact Hv | split; [ exact Hd | ] ].
  exact (proj1 (proj2 (proj2 (scale_value_truncates (-1234) 128 Hv Hd)))).
Defined.

End JoystickExtra.

(** * Properties of the bring-up of the joystick *)

Module BringUpExtra.
Import CInt Zephyr Joystick Script Design Discipline JoystickBringUp.
Import JoystickFacts JoystickExtra.

Lemma driver_calls_map (t : list action) :
  driver_calls (map DriverCall t) = t.
Proof.
  unfold driver_calls.
  induction t as [ | a t IH]; [ reflexivity | ].
  cbn [map flat_map app]. now rewrite IH.
Qed.

Lemma driver_calls_app (t u : list init_call) :
  driver_calls (t ++ u) = driver_calls t ++ driver_calls u.
Proof. unfold driver_calls. apply flat_map_app. Qed.

Section BringUp.
Variable adc : nat -> adc_result.

(** The run of bring-up once the ADC is ready and both channels are set
    up: calibration decides. *)
Lemma joystick_init_ready (hw : adc_setup) (d : nat) (cfg : joystick_config)
    (data : joystick_data) (n : nat) :
  x_ready hw = true -> y_ready hw = true ->
  0 <= x_setup_ret hw -> 0 <= y_setup_ret hw ->
  joystick_init hw adc d cfg data n =
  let r := joystick_calibrate adc data n in
  let t := [AdcChannelSetup X_ADC; AdcChannelSetup Y_ADC]
           ++ map DriverCall (trace r) in
  if fst (value r) <? 0 then ((fst (value r), snd (value r)), transfers r, t)
  else
    ((0, {| dev := Some d;
            center_x := center_x (snd (value r));
            center_y := center_y (snd (value r)) |}),
     transfers r,
     t ++ [DriverCall WorkInitDelayable;
           DriverCall (WorkSchedule
                         (poll_interval_or_default (poll_interval_ms cfg)))]).
Proof.
  intros Hx Hy Hsx Hsy. unfold joystick_init.
  rewrite Hx, Hy. cbn [negb orb].
  apply Z.ltb_ge in Hsx. apply Z.ltb_ge in Hsy. rewrite Hsx, Hsy.
  reflexivity.
Qed.

(** X15. Bring-up of the joystick succeeds exactly when both ADC devices
    are ready, both channel set-ups and all sixteen calibration
    conversions succeed.  On success the centres are the means of the
    samples, the channels were set up before the first conversion, and the
    poller is initialised and armed once; on failure the status is
    negative, the instance data is as it was and the poller is neither
    initialised nor armed. *)
Theorem joystick_init_outcome (hw : adc_setup) (d : nat)
    (cfg : joystick_config) (data : joystick_data) (n : nat) :
  adc_samples adc ->
  let r := joystick_init hw adc d cfg data n in
  let status := fst (fst (fst r)) in
  let data' := snd (fst (fst r)) in
  (status = 0 <->
   x_ready hw = true /\ y_ready hw = true /\
   0 <= x_setup_ret hw /\ 0 <= y_setup_ret hw /\
   forall k, (k < 16)%nat -> adc_ok (adc (n + k)%nat) = true) /\
  (status = 0 ->
   data' = {| dev := Some d;
              center_x := Z.quot (sum_samples adc n 8) 8;
              center_y := Z.quot (sum_samples adc (S n) 8) 8 |} /\
   snd r = [AdcChannelSetup X_ADC; AdcChannelSetup Y_ADC]
           ++ map DriverCall (paired_sample_calls 8)
           ++ [DriverCall WorkInitDelayable;
               DriverCall (WorkSchedule
                             (poll_interval_or_default
                                (poll_interval_ms cfg)))] /\
   snd (fst r) = (n + 16)%nat) /\
  (status <> 0 ->
   status < 0 /\ data' = data /\
   schedules (driver_calls (snd r)) = [] /\
   ~ In WorkInitDelayable (driver_calls (snd r))) /\
  (x_ready hw && y_ready hw = false -> r = ((- ENODEV, data), n, [])).
Proof.
  intros Hs. cbv zeta.
  destruct (x_ready hw) eqn:Hx.
  2:{ unfold joystick_init. rewrite Hx. cbn.
      repeat split; try discriminate; try lia; try tauto;
        intuition discriminate. }
  destruct (y_ready hw) eqn:Hy.
  2:{ unfold joystick_init. rewrite Hx, Hy. cbn.
      repeat split; try discriminate; try lia; try tauto;
        intuition discriminate. }
  destruct (x_setup_ret hw <? 0) eqn:Hsx.
  { unfold joystick_init. rewrite Hx, Hy, Hsx. cbn.
    apply Z.ltb_lt in Hsx.
    repeat split; try discriminate; try lia; try tauto;
      intuition (try discriminate; lia). }
  destruct (y_setup_ret hw <? 0) eqn:Hsy.
  { unfold joystick_init. rewrite Hx, Hy, Hsx, Hsy. cbn.
    apply Z.ltb_lt in Hsy.
    repeat split; try discriminate; try lia; try tauto;
      intuition (try discriminate; lia). }
  apply Z.ltb_ge in Hsx. apply Z.ltb_ge in Hsy.
  rewrite (joystick_init_ready hw d cfg data n Hx Hy Hsx Hsy). cbv zeta.
  destruct (all_or_first_failure adc n 16)
    as [Hall | [k [Hk [Hfail Hbefore]]]].
  - rewrite (calibrate_success adc data n Hs Hall).
    unfold value, transfers, trace. cbn [fst snd center_x center_y].
    change (0 <? 0) with false. cbv iota. cbn [fst snd].
    split; [ | split; [ | split ] ].
    + split; [ intros _; repeat split; assumption | reflexivity ].
    + intros _. rewrite <- app_assoc. repeat split.
    + intros H. now contradiction H.
    + intros H. discriminate H.
  - destruct (calibrate_failure adc data n k Hk Hfail Hbefore)
      as [Hv Hneg].
    pose proof (calibrate_sampling adc data n) as Hsamp.
    unfold value, trace, transfers in *.
    destruct (joystick_calibrate adc data n) as [[[e dt] n1] t].
    cbn [fst snd] in *. inversion Hv; subst e dt. rewrite Hneg.
    cbn [fst snd]. apply Z.ltb_lt in Hneg.
    destruct (sampling_calls_inert t Hsamp) as [Hsch [Hwi _]].
    split; [ | split; [ | split ] ].
    + split; [ lia | ].
      intros [_ [_ [_ [_ Hall]]]]. rewrite (Hall k Hk) in Hfail.
      discriminate Hfail.
    + lia.
    + intros _. rewrite driver_calls_app, driver_calls_map.
      cbn [driver_calls flat_map app].
      repeat split; [ lia | exact Hsch | exact Hwi ].
    + intros H. discriminate H.
Qed.

(** X16. Bring-up followed by the first tick: when the nine samples of
    each axis, the eight of calibration and the one of the tick, stay
    within a band no wider than the deadzone, the tick reports nothing.  A
    stick at rest is silent whatever noise the deadzone covers. *)
Theorem rest_after_bringup (hw : adc_setup) (d : nat)
    (cfg : joystick_config) (data : joystick_data) (n : nat)
    (lo_x hi_x lo_y hi_y : Z) :
  adc_samples adc ->
  x_ready hw = true -> y_ready hw = true ->
  0 <= x_setup_ret hw -> 0 <= y_setup_ret hw ->
  (forall k, (k < 18)%nat -> adc_ok (adc (n + k)%nat) = true) ->
  (forall i, (i < 9)%nat ->
   lo_x <= sample (adc (n + 2 * i)%nat) <= hi_x) ->
  (forall i, (i < 9)%nat ->
   lo_y <= sample (adc (S n + 2 * i)%nat) <= hi_y) ->
  hi_x - lo_x <= deadzone cfg -> hi_y - lo_y <= deadzone cfg ->
  is_uint16 (deadzone cfg) -> is_uint16 (scale_divisor cfg) ->
  let r := joystick_init hw adc d cfg data n in
  fst (fst (fst r)) = 0 /\
  input_events
    (trace (joystick_work_cb adc cfg (snd (fst (fst r))) (snd (fst r))))
    = [].
Proof.
  intros Hs Hx Hy Hsx Hsy Hok Hbx Hby Hwx Hwy Hdz Hdiv. cbv zeta.
  assert (Hok16 : forall k, (k < 16)%nat -> adc_ok (adc (n + k)%nat) = true)
    by (intros k Hk; apply Hok; lia).
  rewrite (joystick_init_ready hw d cfg data n Hx Hy Hsx Hsy). cbv zeta.
  rewrite (calibrate_success adc data n Hs Hok16).
  unfold value, transfers, trace. cbn [fst snd center_x center_y].
  change (0 <? 0) with false. cbv iota. cbn [fst snd].
  split; [ reflexivity | ].
  pose proof (sum_samples_between adc lo_x hi_x 8 n
                ltac:(intros i Hi; apply Hbx; lia)) as Hsumx.
  pose proof (sum_samples_between adc lo_y hi_y 8 (S n)
                ltac:(intros i Hi; apply Hby; lia)) as Hsumy.
  pose proof (sum_samples_bound adc 8 n Hs) as Hrx.
  pose proof (sum_samples_bound adc 8 (S n) Hs) as Hry.
  change (Z.of_nat 8) with 8 in *.
  set (cx := Z.quot (sum_samples adc n 8) 8) in *.
  set (cy := Z.quot (sum_samples adc (S n) 8) 8) in *.
  assert (Hcx : lo_x <= cx <= hi_x /\ -32768 <= cx <= 32767)
    by (subst cx; Z.to_euclidean_division_equations; lia).
  assert (Hcy : lo_y <= cy <= hi_y /\ -32768 <= cy <= 32767)
    by (subst cy; Z.to_euclidean_division_equations; lia).
  pose proof (Hbx 8%nat ltac:(lia)) as Hraw_x.
  pose proof (Hby 8%nat ltac:(lia)) as Hraw_y.
  replace (n + 2 * 8)%nat with (n + 16)%nat in Hraw_x by lia.
  replace (S n + 2 * 8)%nat with (S (n + 16)) in Hraw_y by lia.
  pose proof (Hok 16%nat ltac:(lia)) as Hok_x.
  pose proof (Hok 17%nat ltac:(lia)) as Hok_y.
  replace (n + 17)%nat with (S (n + 16)) in Hok_y by lia.
  pose proof (effective_divisor_pos _ Hdiv) as He.
  assert (Hdz' : 0 <= deadzone cfg <= 65535) by exact Hdz.
  set (data' := {| dev := Some d; center_x := cx; center_y := cy |}).
  assert (Htx : tick_delta cfg (center_x data') (invert_x cfg)
                  (sample (adc (n + 16)%nat)) = 0).
  { destruct (Z.eq_dec (tick_delta cfg (center_x data') (invert_x cfg)
                          (sample (adc (n + 16)%nat))) 0) as [H0 | Hne];
      [ exact H0 | exfalso ].
    apply tick_delta_nonzero in Hne;
      [ cbn [center_x data'] in Hne; lia
      | apply Hs
      | unfold is_int16, INT16_MIN, INT16_MAX; cbn; lia
      | exact Hdz | exact Hdiv ]. }
  assert (Hty : tick_delta cfg (center_y data') (invert_y cfg)
                  (sample (adc (S (n + 16)))) = 0).
  { destruct (Z.eq_dec (tick_delta cfg (center_y data') (invert_y cfg)
                          (sample (adc (S (n + 16))))) 0) as [H0 | Hne];
      [ exact H0 | exfalso ].
    apply tick_delta_nonzero in Hne;
      [ cbn [center_y data'] in Hne; lia
      | apply Hs
      | unfold is_int16, INT16_MIN, INT16_MAX; cbn; lia
      | exact Hdz | exact Hdiv ]. }
  rewrite work_cb_full_run, Hok_x, Hok_y, Htx, Hty.
  unfold conversion_calls.
  destruct (seq_init_ret (adc (n + 16)%nat) <? 0),
           (seq_init_ret (adc (S (n + 16))) <? 0); reflexivity.
Qed.

End BringUp.

(** A converter that delivers 512 on X and 498 on Y, every time. *)
Lemma steady_adc_samples :
  adc_samples (adc_of [512; 498; 512; 498; 512; 498; 512; 498; 512; 498;
                       512; 498; 512; 498; 512; 498; 512; 498]).
Proof.
  apply adc_of_samples.
  repeat constructor; unfold INT16_MIN, INT16_MAX; lia.
Qed.

(** Bring-up on the calibration example succeeds and centres X on 10. *)
Lemma joystick_init_outcome_witness :
  let hw := {| x_ready := true; y_ready := true;
               x_setup_ret := 0; y_setup_ret := 0 |} in
  adc_samples calibration_example_adc /\
  center_x
    (snd (fst (fst (joystick_init hw calibration_example_adc 0
                      example_joystick_config
                      {| dev := None; center_x := 0; center_y := 0 |}
                      0%nat)))) = 10.
Proof.
  cbv zeta. split; [ exact calibration_example_samples | ].
  pose proof (proj1 (proj2 (joystick_init_outcome calibration_example_adc
                {| x_ready := true; y_ready := true;
                   x_setup_ret := 0; y_setup_ret := 0 |}
                0%nat example_joystick_config
                {| dev := None; center_x := 0; center_y := 0 |} 0%nat
                calibration_example_samples))) as Hpost.
  cbv zeta in Hpost.
  rewrite (proj1 (Hpost ltac:(vm_compute; reflexivity))).
  vm_compute. reflexivity.
Defined.

(** A steady stick, calibrated and then polled, reports nothing, even
    with a deadzone of 0. *)
Lemma rest_after_bringup_witness :
  let hw := {| x_ready := true; y_ready := true;
               x_setup_ret := 0; y_setup_ret := 0 |} in
  let cfg := {| poll_interval_ms := 10; deadzone := 0; scale_divisor := 1;
                invert_x := false; invert_y := true |} in
  let adc := adc_of [512; 498; 512; 498; 512; 498; 512; 498; 512; 498;
                     512; 498; 512; 498; 512; 498; 512; 498] in
  let r := joystick_init hw adc 0 cfg
             {| dev := None; center_x := 0; center_y := 0 |} 0%nat in
  adc_samples adc /\
  input_events
    (trace (joystick_work_cb adc cfg (snd (fst (fst r))) (snd (fst r))))
    = [].
Proof.
  cbv zeta. split; [ exact steady_adc_samples | ].
  refine (proj2 (rest_after_bringup _
                   {| x_ready := true; y_ready := true;
                      x_setup_ret := 0; y_setup_ret := 0 |}
                   0%nat
                   {| poll_interval_ms := 10; deadzone := 0;
                      scale_divisor := 1;
                      invert_x := false; invert_y := true |}
                   {| dev := None; center_x := 0; center_y := 0 |}
                   0%nat 512 512 498 498
                   steady_adc_samples _ _ _ _ _ _ _ _ _ _ _));
    try reflexivity; try (cbn; lia);
    try (unfold is_uint16; cbn; lia).
  - intros k Hk. apply adc_of_ok. cbn. lia.
  - intros i Hi. do 9 (destruct i as [ | i]; [ cbn; lia | ]). lia.
  - intros i Hi. do 9 (destruct i as [ | i]; [ cbn; lia | ]). lia.
Defined.

End BringUpExtra.

(** * The event batches of both pollers *)

Module TickExtra.
Import CInt Zephyr Script Design Discipline.







End TickExtra.

(** * The revision of the joystick driver with prepared sequences *)

Module RevisionExtra.
Import CInt Zephyr JoystickSeq.

Lemma calibrate_requests_app (ch : adc_channel) (t u : list seq_call) :
  calibrate_requests ch (t ++ u) =
  calibrate_requests ch t ++ calibrate_requests ch u.
Proof.
  induction t as [ | a t IH]; [ reflexivity | ].
  destruct a as [c b | ms]; cbn [app calibrate_requests];
    [ destruct c, ch; cbn [app]; rewrite IH; reflexivity | exact IH ].
Qed.

Section Revision.
Variable adc : nat -> adc_read_result.

Lemma read_axis_run (ch : adc_channel) (axis : joystick_axis_data)
    (out : Z) (n : nat) :
  joystick_read_axis adc ch axis out n =
  ((if adc_ret (adc n) <? 0 then adc_ret (adc n) else 0,
    {| seq_calibrate := false; axis_sample := adc_buffer (adc n) |},
    if adc_ret (adc n) <? 0 then out else adc_buffer (adc n)),
   S n, [AdcReadSeq ch (seq_calibrate axis)]).
Proof.
  unfold joystick_read_axis.
  destruct (adc_ret (adc n) <? 0); reflexivity.
Qed.

Lemma calibrate_loop_step (i : nat) (sum_x sum_y : Z)
    (ax ay : joystick_axis_data) (n : nat) :
  calibrate_loop adc (S i) sum_x sum_y ax ay n =
  let '(err, ax', raw_x, n1, t1) := joystick_read_axis adc X_ADC ax 0 n in
  if err <? 0 then ((inl err, ax', ay), n1, t1) else
  let '(err, ay', raw_y, n2, t2) := joystick_read_axis adc Y_ADC ay 0 n1 in
  if err <? 0 then ((inl err, ax', ay'), n2, t1 ++ t2) else
  let '(res, n3, t3) :=
    calibrate_loop adc i (add64 sum_x raw_x) (add64 sum_y raw_y)
      ax' ay' n2 in
  (res, n3, t1 ++ t2 ++ [KSleep 2] ++ t3).
Proof. reflexivity. Qed.

(** Once the flags of both axes are clear, no read of the loop requests a
    calibration of the converter. *)
Lemma loop_requests_clear (i : nat) :
  forall (sum_x sum_y : Z) (ax ay : joystick_axis_data) (n : nat),
  seq_calibrate ax = false -> seq_calibrate ay = false ->
  let '(_, ax', ay', _, t) := calibrate_loop adc i sum_x sum_y ax ay n in
  Forall (eq false) (calibrate_requests X_ADC t) /\
  Forall (eq false) (calibrate_requests Y_ADC t) /\
  seq_calibrate ax' = false /\ seq_calibrate ay' = false.
Proof.
  induction i as [ | i IH]; intros sum_x sum_y ax ay n Hx Hy.
  - cbn. repeat split; try constructor; assumption.
  - cbn [calibrate_loop]. rewrite !read_axis_run, Hx.
    destruct (adc_ret (adc n) <? 0) eqn:Hrx.
    + rewrite Hrx. cbn. repeat split; try constructor; auto.
    + change (0 <? 0) with false. cbv iota. rewrite Hy.
      destruct (adc_ret (adc (S n)) <? 0) eqn:Hry.
      * rewrite Hry. cbn. repeat split; try constructor; auto.
      * change (0 <? 0) with false. cbv iota.
        specialize (IH (add64 sum_x (adc_buffer (adc n)))
                       (add64 sum_y (adc_buffer (adc (S n))))
                       {| seq_calibrate := false;
                          axis_sample := adc_buffer (adc n) |}
                       {| seq_calibrate := false;
                          axis_sample := adc_buffer (adc (S n)) |}
                       (S (S n)) eq_refl eq_refl).
        destruct (calibrate_loop adc i _ _ _ _ (S (S n)))
          as [[[[res ax'] ay'] n3] t3].
        destruct IH as [Hfx [Hfy [Hax Hay]]].
        cbn [app calibrate_requests].
        repeat split; try assumption; constructor; auto.
Qed.

(** X18. Calibration of the converter is requested at most once per
    axis: the first read of an axis carries the [calibrate] flag its
    sequence was prepared with, [joystick_read_axis] clears the flag
    whether or not the read succeeds, and every later read of
    [joystick_calibrate] is issued with the flag clear. *)
Theorem calibrate_requested_once (data : joystick_data) (n : nat) :
  let '(_, data', _, t) := joystick_calibrate adc data n in
  hd_error (calibrate_requests X_ADC t) = Some (seq_calibrate (x data)) /\
  Forall (eq false) (tl (calibrate_requests X_ADC t)) /\
  Forall (eq false) (tl (calibrate_requests Y_ADC t)) /\
  (calibrate_requests Y_ADC t = [] \/
   hd_error (calibrate_requests Y_ADC t) = Some (seq_calibrate (y data))) /\
  seq_calibrate (x data') = false.
Proof.
  unfold joystick_calibrate.
  rewrite (calibrate_loop_step 7). rewrite !read_axis_run.
  destruct (adc_ret (adc n) <? 0) eqn:Hrx.
  - rewrite Hrx. cbn.
    split; [ reflexivity | ].
    split; [ constructor | ].
    split; [ constructor | ].
    split; [ now left | reflexivity ].
  - change (0 <? 0) with false. cbv iota.
    destruct (adc_ret (adc (S n)) <? 0) eqn:Hry.
    + rewrite Hry. cbn.
      split; [ reflexivity | ].
      split; [ constructor | ].
      split; [ constructor | ].
      split; [ now right | reflexivity ].
    + change (0 <? 0) with false. cbv iota.
      pose proof (loop_requests_clear 7
                    (add64 0 (adc_buffer (adc n)))
                    (add64 0 (adc_buffer (adc (S n))))
                    {| seq_calibrate := false;
                       axis_sample := adc_buffer (adc n) |}
                    {| seq_calibrate := false;
                       axis_sample := adc_buffer (adc (S n)) |}
                    (S (S n)) eq_refl eq_refl) as Hrest.
      destruct (calibrate_loop adc 7 _ _ _ _ (S (S n)))
        as [[[[res ax'] ay'] n3] t3].
      destruct Hrest as [Hfx [Hfy [Hax Hay]]].
      destruct res as [err | [sx sy]];
        cbn [app calibrate_requests hd_error tl x];
        (split; [ reflexivity | ]);
        (split; [ exact Hfx | ]);
        (split; [ exact Hfy | ]);
        (split; [ now right | exact Hax ]).
Qed.

(** Both revisions run the same loop: on converters that behave alike
    they return the same sums or the same error after the same number of
    conversions. *)
Lemma loops_agree (i : nat) :
  forall (sum_x sum_y : Z) (ax ay : joystick_axis_data) (n : nat),
  let '(res, _, _, n', _) := calibrate_loop adc i sum_x sum_y ax ay n in
  exists t1,
    Joystick.calibrate_loop (as_dt_adc adc) i sum_x sum_y n = (res, n', t1).
Proof.
  induction i as [ | i IH]; intros sum_x sum_y ax ay n.
  - cbn. eexists. reflexivity.
  - rewrite calibrate_loop_step, !read_axis_run.
    cbn [Joystick.calibrate_loop]. unfold bind at 1.
    rewrite (PollerFacts.joystick_read_axis_run (as_dt_adc adc) X_ADC 0 n).
    cbn [Joystick.seq_init_ret Joystick.read_ret Joystick.sample as_dt_adc].
    change (0 <? 0) with false. cbv iota.
    destruct (adc_ret (adc n) <? 0) eqn:Hrx.
    + cbn [fst snd]. rewrite Hrx. cbn. eexists. reflexivity.
    + cbn [fst snd]. change (0 <? 0) with false. cbv iota.
      unfold bind at 1.
      rewrite (PollerFacts.joystick_read_axis_run (as_dt_adc adc)
                 Y_ADC 0 (S n)).
      cbn [Joystick.seq_init_ret Joystick.read_ret Joystick.sample
           as_dt_adc].
      change (0 <? 0) with false. cbv iota.
      destruct (adc_ret (adc (S n)) <? 0) eqn:Hry.
      * cbn [fst snd]. rewrite Hry. cbn. eexists. reflexivity.
      * cbn [fst snd]. change (0 <? 0) with false. cbv iota.
        unfold bind at 1. unfold call at 1.
        specialize (IH (add64 sum_x (adc_buffer (adc n)))
                       (add64 sum_y (adc_buffer (adc (S n))))
                       {| seq_calibrate := false;
                          axis_sample := adc_buffer (adc n) |}
                       {| seq_calibrate := false;
                          axis_sample := adc_buffer (adc (S n)) |}
                       (S (S n))).
        destruct (calibrate_loop adc i _ _ _ _ (S (S n)))
          as [[[[res ax'] ay'] n3] t3].
        destruct IH as [t1 Ht1]. rewrite Ht1.
        eexists. reflexivity.
Qed.

(** X19. The two revisions of the driver calibrate alike: on converters
    that behave alike, and starting from the same centres,
    [joystick_calibrate] returns the same status, stores the same centres
    and makes the same number of conversions in both. *)
Theorem revisions_calibrate_alike (data : joystick_data)
    (data1 : Joystick.joystick_data) (n : nat) :
  center_x data = Joystick.center_x data1 ->
  center_y data = Joystick.center_y data1 ->
  let '(status, data', n', _) := joystick_calibrate adc data n in
  let r1 := Joystick.joystick_calibrate (as_dt_adc adc) data1 n in
  status = fst (value r1) /\
  center_x data' = Joystick.center_x (snd (value r1)) /\
  center_y data' = Joystick.center_y (snd (value r1)) /\
  n' = transfers r1.
Proof.
  intros Hcx Hcy.
  pose proof (loops_agree 8 0 0 (x data) (y data) n) as Hloop.
  unfold joystick_calibrate, Joystick.joystick_calibrate, bind,
    value, transfers.
  destruct (calibrate_loop adc 8 0 0 (x data) (y data) n)
    as [[[[res ax'] ay'] n3] t3].
  destruct Hloop as [t1 Ht1]. rewrite Ht1.
  destruct res as [err | [sx sy]]; cbn; repeat split; assumption.
Qed.

End Revision.

(** Calibration on eight steady pairs of samples finds the same centres
    in both revisions. *)
Lemma revisions_calibrate_alike_witness :
  let adc := fun _ : nat => {| adc_ret := 0; adc_buffer := 300 |} in
  let data := {| dev := None; center_x := 0; center_y := 0;
                 x := {| seq_calibrate := true; axis_sample := 0 |};
                 y := {| seq_calibrate := true; axis_sample := 0 |} |} in
  let data1 := {| Joystick.dev := None; Joystick.center_x := 0;
                  Joystick.center_y := 0 |} in
  let '(status, data', n', _) := joystick_calibrate adc data 0%nat in
  status = 0 /\ center_x data' = 300 /\
  Joystick.center_x
    (snd (value (Joystick.joystick_calibrate (as_dt_adc adc) data1 0%nat)))
    = 300.
Proof.
  cbv zeta.
  pose proof (revisions_calibrate_alike
                (fun _ : nat => {| adc_ret := 0; adc_buffer := 300 |})
                {| dev := None; center_x := 0; center_y := 0;
                   x := {| seq_calibrate := true; axis_sample := 0 |};
                   y := {| seq_calibrate := true; axis_sample := 0 |} |}
                {| Joystick.dev := None; Joystick.center_x := 0;
                   Joystick.center_y := 0 |}
                0%nat eq_refl eq_refl) as H.
  destruct (joystick_calibrate _ _ 0%nat) as [[[status data'] n'] t].
  destruct H as [Hs [Hx _]].
  rewrite Hs, Hx. vm_compute. repeat split.
Defined.

End RevisionExtra.
